(** * BasicModel: the SSD backbone of assignment4/SSD/ssd/modeling/backbones/basic.py

    The class builds six [torch.nn.Sequential] stages in its constructor and
    its [forward] method threads an input tensor through them, collects the
    six intermediate activations, checks their shapes against the
    configuration and returns them.

    The development has three layers:
    - [Py]: the fragment of Python the code relies on (exceptions, list
      indexing, tuple unpacking, f-string rendering of the assertion
      messages);
    - [Torch]: the shape contract of the three [torch.nn] modules the
      constructor instantiates, following the output-size formulas of the
      PyTorch documentation.  A tensor is represented by its shape; element
      values never influence the control flow of this code.  Whether the
      parameters of a convolution can be allocated is left to the machine,
      a parameter of the model;
    - the class itself: [__init__] and [forward].  [forward] is written once,
      over any implementation of "a callable layer" and "a tensor with a
      shape", which is all the method uses. *)

From Stdlib Require Import ZArith List String Bool Lia DecimalString.
Import ListNotations.
Local Open Scope Z_scope.

(* ================================================================== *)
(** ** Python fragment *)

Module Py.

(** The two assertion messages of [forward], before rendering. *)
Inductive assert_msg : Type :=
| ShapeMismatch (expected_shape got : list Z) (idx : nat)
| CountMismatch (expected_len got_len : nat).

Inductive exn : Type :=
| AssertionError (msg : assert_msg)
| IndexError
| ValueError
| RuntimeError.

Inductive result (A : Type) : Type :=
| Return (a : A)
| Raise (e : exn).
Arguments Return {A} a.
Arguments Raise {A} e.

Definition bind {A B} (c : result A) (k : A -> result B) : result B :=
  match c with
  | Return a => k a
  | Raise e => Raise e
  end.

(** [xs[i]] for a non-negative constant or loop index [i]. *)
Definition getitem {A} (xs : list A) (i : nat) : result A :=
  match nth_error xs i with
  | Some a => Return a
  | None => Raise IndexError
  end.

(** [h, w = t] *)
Definition unpack2 (t : list Z) : result (Z * Z) :=
  match t with
  | [h; w] => Return (h, w)
  | _ => Raise ValueError
  end.

(** [a == b] on tuples of ints. *)
Fixpoint tuple_eqb (a b : list Z) : bool :=
  match a, b with
  | [], [] => true
  | x :: a', y :: b' => (x =? y) && tuple_eqb a' b'
  | _, _ => false
  end.

(** [t[1:]] *)
Definition slice_from_1 (t : list Z) : list Z := tl t.

(** Rendering of the f-strings. *)
Definition str_int (z : Z) : string := NilZero.string_of_int (Z.to_int z).
Definition str_nat (n : nat) : string := str_int (Z.of_nat n).

Fixpoint join_comma (xs : list Z) : string :=
  match xs with
  | [] => EmptyString
  | [x] => str_int x
  | x :: rest => (str_int x ++ ", " ++ join_comma rest)%string
  end.

Definition str_tuple (xs : list Z) : string :=
  match xs with
  | [x] => ("(" ++ str_int x ++ ",)")%string
  | _ => ("(" ++ join_comma xs ++ ")")%string
  end.

Definition str_size (xs : list Z) : string :=
  ("torch.Size([" ++ join_comma xs ++ "])")%string.

Definition describe (m : assert_msg) : string :=
  match m with
  | ShapeMismatch expected_shape got idx =>
      ("Expected shape: " ++ str_tuple expected_shape ++ ", got: "
         ++ str_size got ++ " at output IDX: " ++ str_nat idx)%string
  | CountMismatch expected_len got_len =>
      ("Expected that the length of the outputted features to be: "
         ++ str_nat expected_len ++ ", but it was: " ++ str_nat got_len)%string
  end.

End Py.
Import Py.

Declare Scope py_scope.
Delimit Scope py_scope with py.
Notation "x <- c ;; k" := (Py.bind c (fun x => k))
  (at level 61, c at next level, right associativity) : py_scope.

(* ================================================================== *)
(** ** Shape contract of the torch.nn modules used by the constructor *)

Module Torch.

Record Conv2dCfg : Type := mkConv2d {
  in_channels : Z;
  out_channels : Z;
  kernel_size : Z;
  padding : Z;
  stride : Z
}.

Inductive Module : Type :=
| Conv2d (c : Conv2dCfg)
| ReLU
| MaxPool2d (kernel_size stride : Z).

Definition Sequential : Type := list Module.

(** A tensor, as far as this code observes it: [t.shape]. *)
Record Tensor : Type := mkTensor { dims : list Z }.

(** Whether the parameters of a convolution (a weight of shape
    (out_channels, in_channels, k, k) and a bias of out_channels entries)
    can be allocated is decided by the machine the code runs on, not by the
    code: the machine is a parameter of the model. *)
Class Memory : Type := { allocates_conv2d : Z -> Z -> Z -> bool }.

(** [torch.nn.Conv2d(in_channels, out_channels, kernel_size, padding, stride)]:
    allocating the parameters fails on a negative dimension, and when the
    machine cannot hold them. *)
Definition new_Conv2d {mem : Memory} (in_c out_c k p s : Z) : result Module :=
  if (in_c <? 0) || (out_c <? 0) then Raise RuntimeError
  else if allocates_conv2d in_c out_c k
       then Return (Conv2d (mkConv2d in_c out_c k p s))
       else Raise RuntimeError.

Definition default_stride : Z := 1.

(** Output size of one spatial dimension (dilation 1):
    floor((i + 2p - (k - 1) - 1) / s) + 1. *)
Definition conv_out_size (i k p s : Z) : Z :=
  (i + 2 * p - (k - 1) - 1) / s + 1.

(** Max pooling has padding 0, dilation 1, floor mode. *)
Definition pool_out_size (i k s : Z) : Z :=
  (i - (k - 1) - 1) / s + 1.

Definition conv_hw (c : Conv2dCfg) (h w : Z) : result (Z * Z) :=
  if (h + 2 * padding c <? kernel_size c) || (w + 2 * padding c <? kernel_size c)
  then Raise RuntimeError
  else Return (conv_out_size h (kernel_size c) (padding c) (stride c),
               conv_out_size w (kernel_size c) (padding c) (stride c)).

Definition pool_hw (k s h w : Z) : result (Z * Z) :=
  let ho := pool_out_size h k s in
  let wo := pool_out_size w k s in
  if (ho <? 1) || (wo <? 1) then Raise RuntimeError else Return (ho, wo).

Definition conv2d_forward (c : Conv2dCfg) (t : list Z) : result (list Z) :=
  match t with
  | [n; ch; h; w] =>
      if negb (ch =? in_channels c) then Raise RuntimeError
      else match conv_hw c h w with
           | Return (ho, wo) => Return [n; out_channels c; ho; wo]
           | Raise e => Raise e
           end
  | [ch; h; w] =>
      if negb (ch =? in_channels c) then Raise RuntimeError
      else match conv_hw c h w with
           | Return (ho, wo) => Return [out_channels c; ho; wo]
           | Raise e => Raise e
           end
  | _ => Raise RuntimeError
  end.

Definition max_pool2d_forward (k s : Z) (t : list Z) : result (list Z) :=
  match t with
  | [n; ch; h; w] =>
      match pool_hw k s h w with
      | Return (ho, wo) => Return [n; ch; ho; wo]
      | Raise e => Raise e
      end
  | [ch; h; w] =>
      match pool_hw k s h w with
      | Return (ho, wo) => Return [ch; ho; wo]
      | Raise e => Raise e
      end
  | _ => Raise RuntimeError
  end.

Definition module_forward (m : Module) (t : Tensor) : result Tensor :=
  match m with
  | Conv2d c => (s <- conv2d_forward c (dims t) ;; Return (mkTensor s))%py
  | ReLU => Return t
  | MaxPool2d k s => (s' <- max_pool2d_forward k s (dims t) ;; Return (mkTensor s'))%py
  end.

(** [Sequential.forward]: feed the input through the modules in order. *)
Fixpoint sequential_forward (ms : Sequential) (t : Tensor) : result Tensor :=
  match ms with
  | [] => Return t
  | m :: rest => (t' <- module_forward m t ;; sequential_forward rest t')%py
  end.

End Torch.

(* ================================================================== *)
(** ** What [forward] needs from a layer and from a tensor *)

Class Callable (Layer Tensor : Type) : Type := {
  call : Layer -> Tensor -> result Tensor;   (* layer(activation) *)
  shape : Tensor -> list Z                   (* feature.shape *)
}.

#[export] Instance torch_callable : Callable Torch.Sequential Torch.Tensor := {
  call := Torch.sequential_forward;
  shape := Torch.dims
}.

(* ================================================================== *)
(** ** The class *)

Record BasicModel (Layer : Type) : Type := mkBasicModel {
  out_channels : list Z;
  output_feature_shape : list (list Z);
  layer_1 : Layer;
  layer_2 : Layer;
  layer_3 : Layer;
  layer_4 : Layer;
  layer_5 : Layer;
  layer_6 : Layer;
  layers : list Layer
}.
Arguments mkBasicModel {Layer}.
Arguments out_channels {Layer} _.
Arguments output_feature_shape {Layer} _.
Arguments layer_1 {Layer} _.
Arguments layer_2 {Layer} _.
Arguments layer_3 {Layer} _.
Arguments layer_4 {Layer} _.
Arguments layer_5 {Layer} _.
Arguments layer_6 {Layer} _.
Arguments layers {Layer} _.

Definition __init__ {mem : Torch.Memory} (output_channels : list Z)
    (image_channels : Z) (output_feature_sizes : list (list Z))
    : result (BasicModel Torch.Sequential) :=
  let CONV_PADDING := 1 in
  let CONV_KERNEL_SIZE := 3 in
  let MAX_POOL_KERNEL_SIZE := 2 in
  let MAX_POOL_STRIDE := 2 in
  let conv := fun i o p s => Torch.new_Conv2d i o CONV_KERNEL_SIZE p s in
  let relu := Torch.ReLU in
  let pool := Torch.MaxPool2d MAX_POOL_KERNEL_SIZE MAX_POOL_STRIDE in
  (c11 <- conv image_channels 32 CONV_PADDING Torch.default_stride ;;
   c12 <- conv 32 64 CONV_PADDING Torch.default_stride ;;
   c13 <- conv 64 64 CONV_PADDING Torch.default_stride ;;
   o0 <- getitem output_channels 0 ;;
   c14 <- conv 64 o0 CONV_PADDING 2 ;;
   let layer_1 := [c11; relu; pool; c12; relu; pool; c13; relu; c14; relu] in
   i0 <- getitem output_channels 0 ;;
   c21 <- conv i0 128 CONV_PADDING Torch.default_stride ;;
   o1 <- getitem output_channels 1 ;;
   c22 <- conv 128 o1 CONV_PADDING 2 ;;
   let layer_2 := [c21; relu; c22; relu] in
   i1 <- getitem output_channels 1 ;;
   c31 <- conv i1 256 CONV_PADDING Torch.default_stride ;;
   o2 <- getitem output_channels 2 ;;
   c32 <- conv 256 o2 CONV_PADDING 2 ;;
   let layer_3 := [c31; relu; c32; relu] in
   i2 <- getitem output_channels 2 ;;
   c41 <- conv i2 128 CONV_PADDING Torch.default_stride ;;
   o3 <- getitem output_channels 3 ;;
   c42 <- conv 128 o3 CONV_PADDING 2 ;;
   let layer_4 := [c41; relu; c42; relu] in
   i3 <- getitem output_channels 3 ;;
   c51 <- conv i3 128 CONV_PADDING Torch.default_stride ;;
   o4 <- getitem output_channels 4 ;;
   c52 <- conv 128 o4 CONV_PADDING 2 ;;
   let layer_5 := [c51; relu; c52; relu] in
   i4 <- getitem output_channels 4 ;;
   c61 <- conv i4 128 CONV_PADDING Torch.default_stride ;;
   o5 <- getitem output_channels 5 ;;
   c62 <- conv 128 o5 0 1 ;;
   let layer_6 := [c61; relu; c62; relu] in
   Return (mkBasicModel output_channels output_feature_sizes
             layer_1 layer_2 layer_3 layer_4 layer_5 layer_6
             [layer_1; layer_2; layer_3; layer_4; layer_5; layer_6]))%py.

(** [forward] runs against the object [self]: a computation takes the object
    and gives back the object together with a value or an exception. *)

Section Forward.

Context {Layer Tensor : Type} `{Callable Layer Tensor}.

Definition M (A : Type) : Type :=
  BasicModel Layer -> BasicModel Layer * result A.

Definition ret {A} (a : A) : M A := fun self => (self, Return a).

Definition mbind {A B} (c : M A) (k : A -> M B) : M B :=
  fun self =>
    match c self with
    | (self', Return a) => k a self'
    | (self', Raise e) => (self', Raise e)
    end.

(** [self.attr] *)
Definition getattr {A} (attr : BasicModel Layer -> A) : M A :=
  fun self => (self, Return (attr self)).

(** A computation that does not touch [self]. *)
Definition lift {A} (c : result A) : M A := fun self => (self, c).

(** [assert cond, msg] *)
Definition assert (cond : bool) (msg : assert_msg) : M unit :=
  if cond then ret tt else lift (Raise (AssertionError msg)).

Notation "x <~ c ;; k" := (mbind c (fun x => k))
  (at level 61, c at next level, right associativity).
Notation "c ;;; k" := (mbind c (fun _ => k))
  (at level 61, right associativity).

(** [for layer in self.layers: activation = layer(activation);
    out_features.append(activation)] *)
Fixpoint for_layers (ls : list Layer) (activation : Tensor)
    (out_features : list Tensor) : M (list Tensor) :=
  match ls with
  | [] => ret out_features
  | layer :: rest =>
      activation' <~ lift (call layer activation) ;;
      for_layers rest activation' (out_features ++ [activation'])
  end.

(** [for idx, feature in enumerate(out_features): ...] *)
Fixpoint for_features (idx : nat) (features : list Tensor) : M unit :=
  match features with
  | [] => ret tt
  | feature :: rest =>
      ocs <~ getattr out_channels ;;
      out_channel <~ lift (getitem ocs idx) ;;
      ofs <~ getattr output_feature_shape ;;
      hw <~ lift (getitem ofs idx) ;;
      p <~ lift (unpack2 hw) ;;
      let '(h, w) := p in
      let expected_shape := [out_channel; h; w] in
      assert (tuple_eqb (slice_from_1 (shape feature)) expected_shape)
             (ShapeMismatch expected_shape (slice_from_1 (shape feature)) idx) ;;;
      for_features (S idx) rest
  end.

Definition forward (x : Tensor) : M (list Tensor) :=
  ls <~ getattr layers ;;
  out_features <~ for_layers ls x [] ;;
  for_features 0 out_features ;;;
  ofs <~ getattr output_feature_shape ;;
  assert (Nat.eqb (List.length out_features) (List.length ofs))
         (CountMismatch (List.length ofs) (List.length out_features)) ;;;
  ret out_features.

End Forward.

(** The result and the final object of running a method on [self]. *)
Definition result_of {Layer A} (c : BasicModel Layer -> BasicModel Layer * result A)
    (self : BasicModel Layer) : result A := snd (c self).
Definition self_after {Layer A} (c : BasicModel Layer -> BasicModel Layer * result A)
    (self : BasicModel Layer) : BasicModel Layer := fst (c self).

(* ================================================================== *)
(** ** Vocabulary for the statements *)

Section Vocabulary.

Context {Layer Tensor : Type} `{Callable Layer Tensor}.

(** [feeds ls x fs]: every layer of [ls] accepts its input, starting from
    [x], and [fs] are the successive activations. *)
Inductive feeds : list Layer -> Tensor -> list Tensor -> Prop :=
| feeds_nil : forall x, feeds [] x []
| feeds_cons : forall l ls x y fs,
    call l x = Return y -> feeds ls y fs -> feeds (l :: ls) x (y :: fs).

(** [feeds_raise ls x e]: some layer of [ls] raises [e], the ones before it
    having accepted their inputs. *)
Inductive feeds_raise : list Layer -> Tensor -> exn -> Prop :=
| raise_here : forall l ls x e,
    call l x = Raise e -> feeds_raise (l :: ls) x e
| raise_later : forall l ls x y e,
    call l x = Return y -> feeds_raise ls y e -> feeds_raise (l :: ls) x e.

(** The tuple [(out_channel, h, w)] the configuration gives for index
    [idx], when both lists reach that far and the size is a pair. *)
Definition expected_shape_at (self : BasicModel Layer) (idx : nat)
    : option (list Z) :=
  match nth_error (out_channels self) idx,
        nth_error (output_feature_shape self) idx with
  | Some out_channel, Some [h; w] => Some [out_channel; h; w]
  | _, _ => None
  end.

(** How the body of the checking loop fails on feature [f] at index [idx]. *)
Inductive check_raises (self : BasicModel Layer) (idx : nat) (f : Tensor)
    : exn -> Prop :=
| raises_no_channel :
    nth_error (out_channels self) idx = None ->
    check_raises self idx f IndexError
| raises_no_size : forall c,
    nth_error (out_channels self) idx = Some c ->
    nth_error (output_feature_shape self) idx = None ->
    check_raises self idx f IndexError
| raises_not_pair : forall c t,
    nth_error (out_channels self) idx = Some c ->
    nth_error (output_feature_shape self) idx = Some t ->
    List.length t <> 2%nat ->
    check_raises self idx f ValueError
| raises_mismatch : forall expected,
    expected_shape_at self idx = Some expected ->
    slice_from_1 (shape f) <> expected ->
    check_raises self idx f
      (AssertionError (ShapeMismatch expected (slice_from_1 (shape f)) idx)).

End Vocabulary.

(** *** Reading a stage *)

(** The convolutions of a stage, in order. *)
Fixpoint convs (l : Torch.Sequential) : list Torch.Conv2dCfg :=
  match l with
  | [] => []
  | Torch.Conv2d c :: rest => c :: convs rest
  | _ :: rest => convs rest
  end.

Definition first_conv (l : Torch.Sequential) : option Torch.Conv2dCfg :=
  hd_error (convs l).

Definition final_conv (l : Torch.Sequential) : option Torch.Conv2dCfg :=
  hd_error (rev (convs l)).

(** Size of one spatial dimension after a module, a stage, and after each of
    a list of stages fed one into the next. *)
Definition module_out_size (m : Torch.Module) (i : Z) : Z :=
  match m with
  | Torch.Conv2d c =>
      Torch.conv_out_size i (Torch.kernel_size c) (Torch.padding c) (Torch.stride c)
  | Torch.ReLU => i
  | Torch.MaxPool2d k s => Torch.pool_out_size i k s
  end.

Definition sequential_out_size (l : Torch.Sequential) (i : Z) : Z :=
  fold_left (fun i m => module_out_size m i) l i.

Fixpoint stage_sizes (ls : list Torch.Sequential) (i : Z) : list Z :=
  match ls with
  | [] => []
  | l :: rest =>
      let o := sequential_out_size l i in o :: stage_sizes rest o
  end.

(** Closed forms of the size arithmetic of the three kinds of stage the
    constructor builds: the first stage (two pools, then a stride-2
    convolution), a stage ending in a stride-2 convolution, and the last
    stage (final convolution without padding). *)
Definition first_stage_size (h : Z) : Z := (h / 4 + 1) / 2.
Definition halved_size (h : Z) : Z := (h + 1) / 2.
Definition final_stage_size (h : Z) : Z := h - 2.

(** The sizes of the six features on an input of size [h]. *)
Definition feature_sizes (h : Z) : list Z :=
  let s1 := first_stage_size h in
  let s2 := halved_size s1 in
  let s3 := halved_size s2 in
  let s4 := halved_size s3 in
  let s5 := halved_size s4 in
  [s1; s2; s3; s4; s5; final_stage_size s5].

(** The sizes to configure for an input of height [h] and width [w], and the
    shapes of the six features for batch size [n] and channel counts [oc]. *)
Definition computed_feature_sizes (h w : Z) : list (list Z) :=
  map (fun p => [fst p; snd p]) (combine (feature_sizes h) (feature_sizes w)).

Definition feature_shapes (n : Z) (oc : list Z) (h w : Z) : list Torch.Tensor :=
  map (fun p => Torch.mkTensor (n :: fst p :: snd p))
      (combine (firstn 6 oc) (computed_feature_sizes h w)).

(** The same tensor shape with another batch size. *)
Definition with_batch (n : Z) (t : Torch.Tensor) : Torch.Tensor :=
  match Torch.dims t with
  | [] => t
  | _ :: rest => Torch.mkTensor (n :: rest)
  end.

(** The stages the constructor assembles, by their channel counts. *)
Definition conv3 (i o p s : Z) : Torch.Module :=
  Torch.Conv2d (Torch.mkConv2d i o 3 p s).

Definition first_stage (image_channels o : Z) : Torch.Sequential :=
  [conv3 image_channels 32 1 1; Torch.ReLU; Torch.MaxPool2d 2 2;
   conv3 32 64 1 1; Torch.ReLU; Torch.MaxPool2d 2 2;
   conv3 64 64 1 1; Torch.ReLU;
   conv3 64 o 1 2; Torch.ReLU].

Definition later_stage (i mid o p s : Z) : Torch.Sequential :=
  [conv3 i mid 1 1; Torch.ReLU; conv3 mid o p s; Torch.ReLU].

(** The (in_channels, out_channels) of the fourteen convolutions, in the
    order the constructor builds them. *)
Definition conv_channels (ic o0 o1 o2 o3 o4 o5 : Z) : list (Z * Z) :=
  [(ic, 32); (32, 64); (64, 64); (64, o0);
   (o0, 128); (128, o1); (o1, 256); (256, o2);
   (o2, 128); (128, o3); (o3, 128); (128, o4);
   (o4, 128); (128, o5)].

(** *** The documented configuration *)

(** A machine that holds convolutions of up to 2^31 parameters. *)
Definition example_memory : Torch.Memory :=
  {| Torch.allocates_conv2d := fun i o k => o * i * k * k + o <=? 2 ^ 31 |}.

Definition documented_feature_sizes : list (list Z) :=
  [[38; 38]; [19; 19]; [10; 10]; [5; 5]; [3; 3]; [1; 1]].

Definition documented_sizes : list Z := [38; 19; 10; 5; 3; 1].

Definition example_output_channels : list Z := [128; 256; 128; 128; 64; 64].

Definition example_image : Torch.Tensor := Torch.mkTensor [1; 3; 300; 300].

(** The model the constructor builds for the example configuration, and the
    features it returns on the example image. *)
Definition example_model : BasicModel Torch.Sequential :=
  let l1 := first_stage 3 128 in
  let l2 := later_stage 128 128 256 1 2 in
  let l3 := later_stage 256 256 128 1 2 in
  let l4 := later_stage 128 128 128 1 2 in
  let l5 := later_stage 128 128 64 1 2 in
  let l6 := later_stage 64 128 64 0 1 in
  mkBasicModel example_output_channels documented_feature_sizes
    l1 l2 l3 l4 l5 l6 [l1; l2; l3; l4; l5; l6].

Definition example_features : list Torch.Tensor :=
  [Torch.mkTensor [1; 128; 38; 38]; Torch.mkTensor [1; 256; 19; 19];
   Torch.mkTensor [1; 128; 10; 10]; Torch.mkTensor [1; 128; 5; 5];
   Torch.mkTensor [1; 64; 3; 3]; Torch.mkTensor [1; 64; 1; 1]].

(** Three configurations that differ from the documented one: a wrong last
    size, a missing last size, and a single size that is the second stage's. *)
Definition mismatched_feature_sizes : list (list Z) :=
  [[38; 38]; [19; 19]; [10; 10]; [5; 5]; [3; 3]; [2; 2]].



Definition with_feature_sizes (ofs : list (list Z))
    (self : BasicModel Torch.Sequential) : BasicModel Torch.Sequential :=
  mkBasicModel (out_channels self) ofs
    (layer_1 self) (layer_2 self) (layer_3 self)
    (layer_4 self) (layer_5 self) (layer_6 self) (layers self).

(* ================================================================== *)
(** ** Facts about the Python fragment *)

Lemma tuple_eqb_eq (a b : list Z) : tuple_eqb a b = true <-> a = b.
Proof.
  revert b; induction a as [|x a IH]; intros [|y b]; simpl; split;
    try congruence; try reflexivity.
  - intros E. apply andb_true_iff in E as [E1 E2].
    apply Z.eqb_eq in E1. apply IH in E2. congruence.
  - intros E. inversion E; subst. apply andb_true_iff; split.
    + apply Z.eqb_refl.
    + now apply IH.
Qed.

Lemma tuple_eqb_neq (a b : list Z) : tuple_eqb a b = false <-> a <> b.
Proof.
  rewrite <- tuple_eqb_eq. destruct (tuple_eqb a b); split; congruence.
Qed.

Lemma getitem_Return {A} (xs : list A) (i : nat) (a : A) :
  getitem xs i = Return a <-> nth_error xs i = Some a.
Proof. unfold getitem. destruct (nth_error xs i); split; congruence. Qed.

Lemma getitem_Raise {A} (xs : list A) (i : nat) (e : exn) :
  getitem xs i = Raise e <-> e = IndexError /\ (List.length xs <= i)%nat.
Proof.
  unfold getitem. destruct (nth_error xs i) eqn:E; split.
  - discriminate.
  - intros [_ L]. apply nth_error_None in L. congruence.
  - intros E'. inversion E'. split; [reflexivity | now apply nth_error_None].
  - intros [-> _]. reflexivity.
Qed.

Lemma unpack2_Return (t : list Z) (h w : Z) :
  unpack2 t = Return (h, w) <-> t = [h; w].
Proof.
  destruct t as [|a [|b [|c t]]]; simpl; split; congruence.
Qed.

Lemma unpack2_Raise (t : list Z) (e : exn) :
  unpack2 t = Raise e <-> e = ValueError /\ List.length t <> 2%nat.
Proof.
  destruct t as [|a [|b [|c t]]]; simpl; split;
    try (intros E; inversion E; split; [reflexivity | discriminate]);
    try (intros [-> _]; reflexivity); try discriminate.
  intros [_ L]. now contradiction L.
Qed.

(* ================================================================== *)
(** ** The two loops of [forward] *)

Section Loops.

Context {Layer Tensor : Type} `{Callable Layer Tensor}.

Ltac run_step :=
  unfold mbind, getattr, lift, assert, ret in *; simpl in *.

(** One iteration of the first loop. *)
Lemma for_layers_cons (l : Layer) ls x acc self :
  for_layers (l :: ls) x acc self =
  match call l x with
  | Return y => for_layers ls y (acc ++ [y]) self
  | Raise e => (self, Raise e)
  end.
Proof. simpl. run_step. destruct (call l x); reflexivity. Qed.

(** One iteration of the second loop. *)
Lemma for_features_cons idx (f : Tensor) rest (self : BasicModel Layer) :
  for_features idx (f :: rest) self =
  match nth_error (out_channels self) idx with
  | None => (self, Raise IndexError)
  | Some c =>
      match nth_error (output_feature_shape self) idx with
      | None => (self, Raise IndexError)
      | Some t =>
          match unpack2 t with
          | Raise e => (self, Raise e)
          | Return (h, w) =>
              if tuple_eqb (slice_from_1 (shape f)) [c; h; w]
              then for_features (S idx) rest self
              else (self, Raise (AssertionError
                      (ShapeMismatch [c; h; w] (slice_from_1 (shape f)) idx)))
          end
      end
  end.
Proof.
  simpl. run_step. unfold getitem.
  destruct (nth_error (out_channels self) idx); [|reflexivity].
  destruct (nth_error (output_feature_shape self) idx) as [t|]; [|reflexivity].
  destruct (unpack2 t) as [[h w]|e]; [|reflexivity].
  destruct (tuple_eqb _ _); reflexivity.
Qed.

Lemma for_layers_self ls x acc (self : BasicModel Layer) :
  self_after (for_layers ls x acc) self = self.
Proof.
  unfold self_after. revert x acc.
  induction ls as [|l ls IH]; intros x acc; [reflexivity|].
  rewrite for_layers_cons. destruct (call l x); [apply IH | reflexivity].
Qed.

Lemma for_features_self fs idx (self : BasicModel Layer) :
  self_after (for_features idx fs) self = self.
Proof.
  unfold self_after. revert idx.
  induction fs as [|f fs IH]; intros idx; [reflexivity|].
  rewrite for_features_cons.
  destruct (nth_error (out_channels self) idx); [|reflexivity].
  destruct (nth_error (output_feature_shape self) idx) as [t|]; [|reflexivity].
  destruct (unpack2 t) as [[h w]|e]; [|reflexivity].
  destruct (tuple_eqb _ _); [apply IH | reflexivity].
Qed.

Lemma feeds_length ls x fs : feeds ls x fs -> List.length fs = List.length ls.
Proof. induction 1; simpl; congruence. Qed.

Lemma feeds_functional ls x fs fs' : feeds ls x fs -> feeds ls x fs' -> fs = fs'.
Proof.
  intros F; revert fs'. induction F; intros fs' F'; inversion F'; subst.
  - reflexivity.
  - assert (y = y0) by congruence. subst. f_equal. now apply IHF.
Qed.

Lemma feeds_not_raise ls x fs e : feeds ls x fs -> feeds_raise ls x e -> False.
Proof.
  intros F; induction F; intros R; inversion R; subst; congruence.
Qed.

(** Every run of the layers either yields all activations or stops at the
    first layer that raises. *)
Lemma feeds_total ls x : (exists fs, feeds ls x fs) \/ (exists e, feeds_raise ls x e).
Proof.
  revert x; induction ls as [|l ls IH]; intros x.
  - left. exists []. constructor.
  - destruct (call l x) as [y|e] eqn:E.
    + destruct (IH y) as [[fs F]|[e R]].
      * left. exists (y :: fs). now constructor.
      * right. exists e. now apply raise_later with y.
    + right. exists e. now constructor.
Qed.

Lemma for_layers_Return ls x acc (self : BasicModel Layer) out :
  result_of (for_layers ls x acc) self = Return out <->
  exists fs, feeds ls x fs /\ out = acc ++ fs.
Proof.
  unfold result_of. revert x acc.
  induction ls as [|l ls IH]; intros x acc.
  - simpl. split.
    + intros E. inversion E. exists []. split; [constructor | now rewrite app_nil_r].
    + intros (fs & F & ->). inversion F. now rewrite app_nil_r.
  - rewrite for_layers_cons. split.
    + destruct (call l x) as [y|e] eqn:E; [|discriminate].
      intros R. apply IH in R as (fs & F & ->).
      exists (y :: fs). split; [now constructor | now rewrite <- app_assoc].
    + intros (fs & F & ->). inversion F; subst.
      match goal with E : call l x = _ |- _ => rewrite E end.
      apply IH. eexists. split; [eassumption | now rewrite <- app_assoc].
Qed.

Lemma for_layers_Raise ls x acc (self : BasicModel Layer) e :
  result_of (for_layers ls x acc) self = Raise e <-> feeds_raise ls x e.
Proof.
  unfold result_of. revert x acc.
  induction ls as [|l ls IH]; intros x acc.
  - simpl. split; [discriminate | intros R; inversion R].
  - rewrite for_layers_cons. split.
    + destruct (call l x) as [y|e'] eqn:E.
      * intros R. apply IH in R. now apply raise_later with y.
      * simpl. intros R. inversion R; subst. now constructor.
    + intros R. inversion R; subst.
      * match goal with E : call l x = _ |- _ => now rewrite E end.
      * match goal with E : call l x = _ |- _ => rewrite E end. now apply IH.
Qed.

Lemma expected_shape_at_Some (self : BasicModel Layer) idx expected :
  expected_shape_at self idx = Some expected <->
  exists c h w, nth_error (out_channels self) idx = Some c /\
                nth_error (output_feature_shape self) idx = Some [h; w] /\
                expected = [c; h; w].
Proof.
  unfold expected_shape_at.
  destruct (nth_error (out_channels self) idx) as [c|];
    [destruct (nth_error (output_feature_shape self) idx) as [[|h [|w [|z t]]]|]|];
    split; try discriminate;
    try (intros (c' & h' & w' & E1 & E2 & E3); congruence).
  - intros E. inversion E. now exists c, h, w.
Qed.

(** The outcome of one iteration, read off the configuration. *)
Lemma check_step idx (f : Tensor) rest (self : BasicModel Layer) :
  (expected_shape_at self idx = Some (slice_from_1 (shape f)) /\
   for_features idx (f :: rest) self = for_features (S idx) rest self) \/
  (exists e, check_raises self idx f e /\
             for_features idx (f :: rest) self = (self, Raise e)).
Proof.
  rewrite for_features_cons. unfold expected_shape_at.
  destruct (nth_error (out_channels self) idx) as [c|] eqn:Ec.
  2:{ right. eexists. split; [now apply raises_no_channel | reflexivity]. }
  destruct (nth_error (output_feature_shape self) idx) as [t|] eqn:Et.
  2:{ right. eexists. split; [now apply raises_no_size with c | reflexivity]. }
  destruct (unpack2 t) as [[h w]|e] eqn:Eu.
  - apply unpack2_Return in Eu. subst t.
    destruct (tuple_eqb _ _) eqn:Eq.
    + left. apply tuple_eqb_eq in Eq. rewrite Eq. split; reflexivity.
    + right. apply tuple_eqb_neq in Eq. eexists. split; [|reflexivity].
      apply raises_mismatch; [|assumption].
      unfold expected_shape_at. now rewrite Ec, Et.
  - apply unpack2_Raise in Eu as [-> L]. right. eexists. split; [|reflexivity].
    now apply raises_not_pair with c t.
Qed.

Lemma check_raises_not_expected (self : BasicModel Layer) idx f e :
  check_raises self idx f e ->
  expected_shape_at self idx = Some (slice_from_1 (shape f)) -> False.
Proof.
  intros R E. apply expected_shape_at_Some in E as (c & h & w & E1 & E2 & E3).
  inversion R; subst; try congruence.
  - match goal with L : List.length _ <> _ |- _ => apply L end.
    assert (t = [h; w]) by congruence. now subst.
  - match goal with
    | E : expected_shape_at _ _ = Some _ |- _ =>
        apply expected_shape_at_Some in E as (c' & h' & w' & E1' & E2' & E3')
    end. congruence.
Qed.

Lemma check_raises_functional (self : BasicModel Layer) idx f e e' :
  check_raises self idx f e -> check_raises self idx f e' -> e = e'.
Proof.
  assert (P : forall expected, expected_shape_at self idx = Some expected ->
              exists c h w, nth_error (out_channels self) idx = Some c /\
                            nth_error (output_feature_shape self) idx = Some [h; w]).
  { intros expected E.
    apply expected_shape_at_Some in E as (c & h & w & E1 & E2 & _).
    now exists c, h, w. }
  intros R R'.
  inversion R as [E1|c E1 E2|c t E1 E2 L|ex E N]; subst;
    inversion R' as [E1'|c' E1' E2'|c' t' E1' E2' L'|ex' E' N']; subst;
    try reflexivity; try congruence.
  - apply P in E' as (? & h & w & A & B). congruence.
  - apply P in E' as (? & h & w & A & B). congruence.
  - apply P in E' as (? & h & w & A & B).
    exfalso. apply L. assert (t = [h; w]) by congruence. now subst.
  - apply P in E as (? & h & w & A & B). congruence.
  - apply P in E as (? & h & w & A & B). congruence.
  - apply P in E as (? & h & w & A & B).
    exfalso. apply L'. assert (t' = [h; w]) by congruence. now subst.
Qed.

Lemma for_features_Return fs idx (self : BasicModel Layer) u :
  result_of (for_features idx fs) self = Return u <->
  forall k f, nth_error fs k = Some f ->
              expected_shape_at self (idx + k) = Some (slice_from_1 (shape f)).
Proof.
  unfold result_of. revert idx.
  induction fs as [|f fs IH]; intros idx.
  - simpl. destruct u. split; [|reflexivity].
    intros _ [|k] g E; discriminate.
  - destruct (check_step idx f fs self) as [[E ->]|(e & R & ->)].
    + rewrite IH. split.
      * intros A [|k] g Eg; simpl in Eg.
        -- inversion Eg; subst. now rewrite Nat.add_0_r.
        -- rewrite Nat.add_succ_r. now apply (A k g).
      * intros A k g Eg. specialize (A (S k) g Eg).
        now rewrite Nat.add_succ_r in A.
    + simpl. split; [discriminate|].
      intros A. exfalso. apply (check_raises_not_expected self idx f e R).
      specialize (A 0%nat f eq_refl). now rewrite Nat.add_0_r in A.
Qed.

Lemma for_features_Raise fs idx (self : BasicModel Layer) e :
  result_of (for_features idx fs) self = Raise e <->
  exists k f,
    nth_error fs k = Some f /\
    (forall j g, (j < k)%nat -> nth_error fs j = Some g ->
                 expected_shape_at self (idx + j) = Some (slice_from_1 (shape g))) /\
    check_raises self (idx + k) f e.
Proof.
  unfold result_of. revert idx.
  induction fs as [|f fs IH]; intros idx.
  - simpl. split; [discriminate|]. intros ([|k] & g & E & _); discriminate.
  - destruct (check_step idx f fs self) as [[E ->]|(e' & R & ->)].
    + rewrite IH. split.
      * intros (k & g & Eg & A & C). exists (S k), g. repeat split.
        -- exact Eg.
        -- intros [|j] g' Lj Ej; simpl in Ej.
           ++ inversion Ej; subst. now rewrite Nat.add_0_r.
           ++ rewrite Nat.add_succ_r. apply (A j g'); [lia | assumption].
        -- now rewrite Nat.add_succ_r.
      * intros ([|k] & g & Eg & A & C); simpl in Eg.
        -- inversion Eg; subst. rewrite Nat.add_0_r in C.
           exfalso. now apply (check_raises_not_expected self idx g e C).
        -- exists k, g. repeat split.
           ++ exact Eg.
           ++ intros j g' Lj Ej. specialize (A (S j) g').
              rewrite Nat.add_succ_r in A. apply A; [lia | assumption].
           ++ now rewrite Nat.add_succ_r in C.
    + simpl. split.
      * intros E. inversion E; subst. exists 0%nat, f. repeat split.
        -- intros j g Lj. lia.
        -- now rewrite Nat.add_0_r.
      * intros ([|k] & g & Eg & A & C); simpl in Eg.
        -- inversion Eg; subst. rewrite Nat.add_0_r in C.
           f_equal. now apply (check_raises_functional self idx g).
        -- exfalso. apply (check_raises_not_expected self idx f e' R).
           specialize (A 0%nat f). rewrite Nat.add_0_r in A.
           apply A; [lia | reflexivity].
Qed.

End Loops.

(* ================================================================== *)
(** ** [forward] as a whole *)

Section ForwardFacts.

Context {Layer Tensor : Type} `{Callable Layer Tensor}.

(** The method, with the reads of [self] resolved. *)
Lemma forward_unfold x (self : BasicModel Layer) :
  forward x self =
  match for_layers (layers self) x [] self with
  | (self1, Return out_features) =>
      match for_features 0 out_features self1 with
      | (self2, Return _) =>
          if Nat.eqb (List.length out_features)
                     (List.length (output_feature_shape self2))
          then (self2, Return out_features)
          else (self2, Raise (AssertionError
                  (CountMismatch (List.length (output_feature_shape self2))
                                 (List.length out_features))))
      | (self2, Raise e) => (self2, Raise e)
      end
  | (self1, Raise e) => (self1, Raise e)
  end.
Proof.
  unfold forward, mbind, getattr, assert, lift, ret. simpl.
  destruct (for_layers (layers self) x [] self) as [self1 [out|e]]; [|reflexivity].
  destruct (for_features 0 out self1) as [self2 [u|e]]; [|reflexivity].
  destruct (Nat.eqb _ _); reflexivity.
Qed.

Lemma forward_self x (self : BasicModel Layer) :
  self_after (forward x) self = self.
Proof.
  unfold self_after. rewrite forward_unfold.
  pose proof (for_layers_self (layers self) x [] self) as F1.
  unfold self_after in F1.
  destruct (for_layers (layers self) x [] self) as [self1 [out|e]];
    simpl in F1; subst self1; [|reflexivity].
  pose proof (for_features_self out 0 self) as F2.
  unfold self_after in F2.
  destruct (for_features 0 out self) as [self2 [u|e]];
    simpl in F2; subst self2; [|reflexivity].
  destruct (Nat.eqb _ _); reflexivity.
Qed.

(** The result of [forward], by the outcome of its three phases. *)
Lemma forward_result x (self : BasicModel Layer) :
  result_of (forward x) self =
  match result_of (for_layers (layers self) x []) self with
  | Return out_features =>
      match result_of (for_features 0 out_features) self with
      | Return _ =>
          if Nat.eqb (List.length out_features)
                     (List.length (output_feature_shape self))
          then Return out_features
          else Raise (AssertionError
                  (CountMismatch (List.length (output_feature_shape self))
                                 (List.length out_features)))
      | Raise e => Raise e
      end
  | Raise e => Raise e
  end.
Proof.
  unfold result_of. rewrite forward_unfold.
  pose proof (for_layers_self (layers self) x [] self) as F1.
  unfold self_after in F1.
  destruct (for_layers (layers self) x [] self) as [self1 [out|e]];
    simpl in F1; subst self1; [|reflexivity].
  pose proof (for_features_self out 0 self) as F2.
  unfold self_after in F2. simpl.
  destruct (for_features 0 out self) as [self2 [u|e]];
    simpl in F2; subst self2; [|reflexivity].
  simpl. destruct (Nat.eqb _ _); reflexivity.
Qed.

Lemma forward_Return x (self : BasicModel Layer) out :
  result_of (forward x) self = Return out <->
  feeds (layers self) x out /\
  (forall k f, nth_error out k = Some f ->
               expected_shape_at self k = Some (slice_from_1 (shape f))) /\
  List.length out = List.length (output_feature_shape self).
Proof.
  rewrite forward_result.
  destruct (result_of (for_layers (layers self) x []) self) as [fs|e] eqn:E1.
  - apply for_layers_Return in E1 as (fs' & F & E). simpl in E. subst fs'.
    destruct (result_of (for_features 0 fs) self) as [u|e] eqn:E2.
    + pose proof (proj1 (for_features_Return fs 0 self u) E2) as A. simpl in A.
      destruct (Nat.eqb _ _) eqn:L.
      * apply Nat.eqb_eq in L. split.
        -- intros R. inversion R; subst. auto.
        -- intros (F' & _ & _). f_equal. now apply (feeds_functional _ _ _ _ F F').
      * apply Nat.eqb_neq in L. split; [discriminate|].
        intros (F' & _ & L'). exfalso. apply L.
        now rewrite (feeds_functional _ _ _ _ F F').
    + split; [discriminate|]. intros (F' & A & _).
      assert (out = fs) by now apply (feeds_functional _ _ _ _ F' F). subst out.
      assert (R : result_of (for_features 0 fs) self = Return tt)
        by (apply for_features_Return; exact A).
      congruence.
  - apply for_layers_Raise in E1. split; [discriminate|].
    intros (F & _). exfalso. now apply (feeds_not_raise _ _ _ _ F E1).
Qed.

Lemma forward_Raise x (self : BasicModel Layer) e :
  result_of (forward x) self = Raise e <->
  feeds_raise (layers self) x e \/
  exists fs, feeds (layers self) x fs /\
    ((exists k f,
        nth_error fs k = Some f /\
        (forall j g, (j < k)%nat -> nth_error fs j = Some g ->
                     expected_shape_at self j = Some (slice_from_1 (shape g))) /\
        check_raises self k f e) \/
     ((forall k f, nth_error fs k = Some f ->
                   expected_shape_at self k = Some (slice_from_1 (shape f))) /\
      List.length fs <> List.length (output_feature_shape self) /\
      e = AssertionError
            (CountMismatch (List.length (output_feature_shape self))
                           (List.length fs)))).
Proof.
  rewrite forward_result.
  destruct (result_of (for_layers (layers self) x []) self) as [fs|e1] eqn:E1.
  - apply for_layers_Return in E1 as (fs' & F & E). simpl in E. subst fs'.
    assert (U : forall fs', feeds (layers self) x fs' -> fs' = fs)
      by (intros fs' F'; now apply (feeds_functional _ _ _ _ F' F)).
    destruct (result_of (for_features 0 fs) self) as [u|e2] eqn:E2.
    + pose proof (proj1 (for_features_Return fs 0 self u) E2) as A. simpl in A.
      destruct (Nat.eqb _ _) eqn:L.
      * apply Nat.eqb_eq in L. split; [discriminate|].
        intros [R|(fs' & F' & [(k & f & Ef & _ & C)|(_ & L' & _)])].
        -- exfalso. now apply (feeds_not_raise _ _ _ _ F R).
        -- apply U in F'. subst fs'. exfalso.
           apply (check_raises_not_expected self k f e C). now apply A.
        -- apply U in F'. subst fs'. congruence.
      * apply Nat.eqb_neq in L. split.
        -- intros R. inversion R; subst. right. exists fs. split; [exact F|].
           right. auto.
        -- intros [R|(fs' & F' & [(k & f & Ef & _ & C)|(_ & _ & ->)])].
           ++ exfalso. now apply (feeds_not_raise _ _ _ _ F R).
           ++ apply U in F'. subst fs'. exfalso.
              apply (check_raises_not_expected self k f e C). now apply A.
           ++ apply U in F'. now subst fs'.
    + pose proof (proj1 (for_features_Raise fs 0 self e2) E2) as (k & f & Ef & A & C).
      simpl in A, C. split.
      * intros R. inversion R; subst. right. exists fs. split; [exact F|].
        left. exists k, f. auto.
      * intros [R|(fs' & F' & [(k' & f' & Ef' & A' & C')|(A' & _ & _)])].
        -- exfalso. now apply (feeds_not_raise _ _ _ _ F R).
        -- apply U in F'. subst fs'. f_equal. symmetry.
           assert (R : result_of (for_features 0 fs) self = Raise e)
             by (apply for_features_Raise; exists k', f'; auto).
           congruence.
        -- apply U in F'. subst fs'. exfalso.
           apply (check_raises_not_expected self k f e2 C). now apply A'.
  - apply for_layers_Raise in E1. split.
    + intros R. inversion R; subst. now left.
    + intros [R|(fs & F & _)].
      * f_equal.
        assert (R1 : result_of (for_layers (layers self) x []) self = Raise e1)
          by now apply for_layers_Raise.
        assert (R2 : result_of (for_layers (layers self) x []) self = Raise e)
          by now apply for_layers_Raise.
        congruence.
      * exfalso. now apply (feeds_not_raise _ _ _ _ F E1).
Qed.

End ForwardFacts.

(* ================================================================== *)
(** ** The constructor *)

Section Constructed.

Context {mem : Torch.Memory}.

Lemma new_Conv2d_Return i o k p s m :
  Torch.new_Conv2d i o k p s = Return m <->
  0 <= i /\ 0 <= o /\ Torch.allocates_conv2d i o k = true /\
  m = Torch.Conv2d (Torch.mkConv2d i o k p s).
Proof.
  unfold Torch.new_Conv2d.
  destruct (i <? 0) eqn:Ei; destruct (o <? 0) eqn:Eo;
    destruct (Torch.allocates_conv2d i o k) eqn:Ea; simpl;
    try apply Z.ltb_lt in Ei; try apply Z.ltb_ge in Ei;
    try apply Z.ltb_lt in Eo; try apply Z.ltb_ge in Eo;
    split; try discriminate; try (intros (A & B & C & D); (lia || discriminate)).
  - intros E. inversion E. auto.
  - intros (_ & _ & _ & ->). reflexivity.
Qed.

Lemma new_Conv2d_Raise i o k p s e :
  Torch.new_Conv2d i o k p s = Raise e <->
  e = RuntimeError /\ (i < 0 \/ o < 0 \/ Torch.allocates_conv2d i o k = false).
Proof.
  unfold Torch.new_Conv2d.
  destruct (i <? 0) eqn:Ei; destruct (o <? 0) eqn:Eo;
    destruct (Torch.allocates_conv2d i o k) eqn:Ea; simpl;
    try apply Z.ltb_lt in Ei; try apply Z.ltb_ge in Ei;
    try apply Z.ltb_lt in Eo; try apply Z.ltb_ge in Eo;
    split; try discriminate;
    try (intros E; inversion E; split; [reflexivity | auto]);
    try (intros [-> _]; reflexivity).
  intros [_ [A|[A|A]]]; (lia || discriminate).
Qed.

Lemma new_Conv2d_ok i o k p s :
  0 <= i -> 0 <= o -> Torch.allocates_conv2d i o k = true ->
  Torch.new_Conv2d i o k p s = Return (Torch.Conv2d (Torch.mkConv2d i o k p s)).
Proof. intros. apply new_Conv2d_Return. auto. Qed.

(** With six channel counts, none negative, on a machine that can hold the
    fourteen convolutions, construction succeeds and builds these stages. *)
Lemma init_ok o0 o1 o2 o3 o4 o5 rest ic ofs :
  0 <= ic -> 0 <= o0 -> 0 <= o1 -> 0 <= o2 -> 0 <= o3 -> 0 <= o4 -> 0 <= o5 ->
  Forall (fun p => Torch.allocates_conv2d (fst p) (snd p) 3 = true)
         (conv_channels ic o0 o1 o2 o3 o4 o5) ->
  let oc := o0 :: o1 :: o2 :: o3 :: o4 :: o5 :: rest in
  let l1 := first_stage ic o0 in
  let l2 := later_stage o0 128 o1 1 2 in
  let l3 := later_stage o1 256 o2 1 2 in
  let l4 := later_stage o2 128 o3 1 2 in
  let l5 := later_stage o3 128 o4 1 2 in
  let l6 := later_stage o4 128 o5 0 1 in
  __init__ oc ic ofs =
  Return (mkBasicModel oc ofs l1 l2 l3 l4 l5 l6 [l1; l2; l3; l4; l5; l6]).
Proof.
  intros Hic H0 H1 H2 H3 H4 H5 A. unfold conv_channels in A.
  repeat match goal with
  | A : Forall _ (_ :: _) |- _ => inversion A; subst; clear A
  end.
  cbn [fst snd] in *.
  unfold __init__. cbn [getitem nth_error].
  repeat (rewrite new_Conv2d_ok by (assumption || lia); cbn [bind]).
  reflexivity.
Qed.

Ltac conv_step E :=
  match type of E with
  | context [Torch.new_Conv2d ?i ?o ?k ?p ?s] =>
      let C := fresh "C" in
      let m := fresh "m" in
      let e := fresh "e" in
      destruct (Torch.new_Conv2d i o k p s) as [m|e] eqn:C;
      [ apply new_Conv2d_Return in C as (? & ? & ? & ->)
      | apply new_Conv2d_Raise in C as [-> ?] ];
      cbn [bind getitem nth_error] in E
  end.

(** What a successful construction has built. *)
Lemma init_Return_inv oc ic ofs self :
  __init__ oc ic ofs = Return self ->
  exists o0 o1 o2 o3 o4 o5 rest,
    oc = o0 :: o1 :: o2 :: o3 :: o4 :: o5 :: rest /\
    0 <= ic /\ 0 <= o0 /\ 0 <= o1 /\ 0 <= o2 /\ 0 <= o3 /\ 0 <= o4 /\ 0 <= o5 /\
    self = mkBasicModel oc ofs
             (first_stage ic o0) (later_stage o0 128 o1 1 2)
             (later_stage o1 256 o2 1 2) (later_stage o2 128 o3 1 2)
             (later_stage o3 128 o4 1 2) (later_stage o4 128 o5 0 1)
             [first_stage ic o0; later_stage o0 128 o1 1 2;
              later_stage o1 256 o2 1 2; later_stage o2 128 o3 1 2;
              later_stage o3 128 o4 1 2; later_stage o4 128 o5 0 1].
Proof.
  intros E. unfold __init__ in E.
  destruct oc as [|o0 [|o1 [|o2 [|o3 [|o4 [|o5 rest]]]]]];
    cbn [bind getitem nth_error] in E;
    repeat (conv_step E; try discriminate).
  inversion E; subst.
  exists o0, o1, o2, o3, o4, o5, rest. repeat split; assumption.
Qed.

(** A successful construction has allocated the fourteen convolutions. *)
Lemma init_Return_allocates o0 o1 o2 o3 o4 o5 rest ic ofs self :
  __init__ (o0 :: o1 :: o2 :: o3 :: o4 :: o5 :: rest) ic ofs = Return self ->
  Forall (fun p => Torch.allocates_conv2d (fst p) (snd p) 3 = true)
         (conv_channels ic o0 o1 o2 o3 o4 o5).
Proof.
  intros E. unfold __init__ in E. cbn [bind getitem nth_error] in E.
  repeat (conv_step E; try discriminate).
  unfold conv_channels. repeat constructor; assumption.
Qed.


(* ================================================================== *)
(** ** The torch modules on shapes *)

Ltac torch_cases :=
  repeat match goal with
  | |- context [if ?b then _ else _] => destruct b eqn:?
  | H : context [if ?b then _ else _] |- _ => destruct b eqn:?
  | H : Return _ = Return _ |- _ => inversion H; subst; clear H
  | H : Raise _ = Raise _ |- _ => inversion H; subst; clear H
  | H : Raise _ = Return _ |- _ => discriminate H
  | H : Return _ = Raise _ |- _ => discriminate H
  | _ => progress (cbn [bind] in * )
  end.

Lemma module_forward_Raise m t e :
  Torch.module_forward m t = Raise e -> e = RuntimeError.
Proof.
  destruct t as [d]. destruct m as [c| |k s]; simpl;
    unfold Torch.conv2d_forward, Torch.max_pool2d_forward,
           Torch.conv_hw, Torch.pool_hw;
    destruct d as [|d0 [|d1 [|d2 [|d3 [|d4 d]]]]]; simpl; intros E;
    torch_cases; reflexivity.
Qed.

Lemma sequential_forward_Raise l t e :
  Torch.sequential_forward l t = Raise e -> e = RuntimeError.
Proof.
  revert t; induction l as [|m l IH]; intros t; simpl; [discriminate|].
  destruct (Torch.module_forward m t) as [t'|e'] eqn:E; simpl.
  - apply IH.
  - intros R. inversion R; subst. now apply module_forward_Raise in E.
Qed.

(** On a batched input, a module keeps the batch size and maps each spatial
    size by its own formula. *)
Lemma module_forward_batched m n c h w y :
  Torch.module_forward m (Torch.mkTensor [n; c; h; w]) = Return y ->
  exists c', Torch.dims y = [n; c'; module_out_size m h; module_out_size m w].
Proof.
  destruct m as [cfg| |k s]; simpl;
    unfold Torch.conv2d_forward, Torch.max_pool2d_forward,
           Torch.conv_hw, Torch.pool_hw; simpl; intros E;
    torch_cases; simpl; eauto.
Qed.

(** A module keeps the rank of its input. *)
Lemma module_forward_rank m t y :
  Torch.module_forward m t = Return y ->
  List.length (Torch.dims y) = List.length (Torch.dims t).
Proof.
  destruct t as [d]. destruct m as [c| |k s]; simpl;
    unfold Torch.conv2d_forward, Torch.max_pool2d_forward,
           Torch.conv_hw, Torch.pool_hw;
    destruct d as [|d0 [|d1 [|d2 [|d3 [|d4 d]]]]]; simpl; intros E;
    torch_cases; reflexivity.
Qed.

(** No module looks at the batch size. *)
Lemma module_forward_with_batch m n n' c h w y :
  Torch.module_forward m (Torch.mkTensor [n; c; h; w]) = Return y ->
  Torch.module_forward m (Torch.mkTensor [n'; c; h; w]) = Return (with_batch n' y).
Proof.
  destruct m as [cfg| |k s]; simpl;
    unfold Torch.conv2d_forward, Torch.max_pool2d_forward,
           Torch.conv_hw, Torch.pool_hw; simpl; intros E;
    torch_cases; reflexivity.
Qed.

Lemma rank4_inv (d : list Z) :
  List.length d = 4%nat -> exists n c h w, d = [n; c; h; w].
Proof.
  destruct d as [|n [|c [|h [|w [|z d]]]]]; simpl; try discriminate.
  intros _. now exists n, c, h, w.
Qed.

Lemma sequential_forward_rank l t y :
  Torch.sequential_forward l t = Return y ->
  List.length (Torch.dims y) = List.length (Torch.dims t).
Proof.
  revert t; induction l as [|m l IH]; intros t; simpl.
  - intros E. now inversion E.
  - destruct (Torch.module_forward m t) as [t'|e] eqn:E; simpl; [|discriminate].
    intros R. rewrite (IH _ R). now apply module_forward_rank with m.
Qed.

Lemma sequential_forward_batched l n c h w y :
  Torch.sequential_forward l (Torch.mkTensor [n; c; h; w]) = Return y ->
  exists c', Torch.dims y = [n; c'; sequential_out_size l h; sequential_out_size l w].
Proof.
  revert c h w; induction l as [|m l IH]; intros c h w; simpl.
  - intros E. inversion E. simpl. eauto.
  - destruct (Torch.module_forward m _) as [[d]|e] eqn:E; simpl; [|discriminate].
    apply module_forward_batched in E as (c1 & E). simpl in E. subst d.
    apply IH.
Qed.

Lemma sequential_forward_with_batch l n n' c h w y :
  Torch.sequential_forward l (Torch.mkTensor [n; c; h; w]) = Return y ->
  Torch.sequential_forward l (Torch.mkTensor [n'; c; h; w]) = Return (with_batch n' y).
Proof.
  revert c h w; induction l as [|m l IH]; intros c h w; simpl.
  - intros E. inversion E. reflexivity.
  - destruct (Torch.module_forward m _) as [[d]|e] eqn:E; simpl; [|discriminate].
    pose proof (module_forward_with_batch _ _ n' _ _ _ _ E) as E'.
    apply module_forward_batched in E as (c1 & E). simpl in E. subst d.
    rewrite E'. simpl. unfold with_batch at 1. simpl. apply IH.
Qed.

(** The activations of a batched input are batched, with the same batch
    size, and their spatial sizes follow the stage arithmetic. *)
Lemma feeds_batched ls n c h w fs :
  feeds ls (Torch.mkTensor [n; c; h; w]) fs ->
  Forall (fun f => exists c' h' w', Torch.dims f = [n; c'; h'; w']) fs /\
  map (fun f => skipn 2 (Torch.dims f)) fs =
  map (fun p => [fst p; snd p]) (combine (stage_sizes ls h) (stage_sizes ls w)).
Proof.
  revert c h w fs; induction ls as [|l ls IH]; intros c h w fs F;
    inversion F as [|l' ls' x [d] fs' E F']; subst.
  - split; [constructor | reflexivity].
  - simpl in E. apply sequential_forward_batched in E as (c' & E).
    simpl in E. subst d.
    destruct (IH _ _ _ _ F') as [A B]. split.
    + constructor; [simpl; eauto | exact A].
    + simpl. f_equal. exact B.
Qed.

Lemma feeds_with_batch ls n n' c h w fs :
  feeds ls (Torch.mkTensor [n; c; h; w]) fs ->
  feeds ls (Torch.mkTensor [n'; c; h; w]) (map (with_batch n') fs).
Proof.
  revert c h w fs; induction ls as [|l ls IH]; intros c h w fs F;
    inversion F as [|l' ls' x [d] fs' E F']; subst.
  - constructor.
  - simpl in E.
    pose proof (sequential_forward_with_batch _ _ n' _ _ _ _ E) as E'.
    apply sequential_forward_batched in E as (c' & E).
    simpl in E. subst d. simpl. constructor.
    + exact E'.
    + unfold with_batch at 1. simpl. now apply IH.
Qed.

Lemma feeds_raise_runtime ls (x : Torch.Tensor) e :
  feeds_raise ls x e -> e = RuntimeError.
Proof.
  induction 1 as [l ls x e E|]; [|assumption].
  simpl in E. now apply sequential_forward_Raise in E.
Qed.

(** The first activation has the rank of the input: a returned feature of
    rank four means the input was batched. *)
Lemma feeds_rank ls (x : Torch.Tensor) fs :
  feeds ls x fs ->
  Forall (fun f => List.length (Torch.dims f) = List.length (Torch.dims x)) fs.
Proof.
  induction 1 as [|l ls x y fs E F IH]; constructor.
  - simpl in E. now apply sequential_forward_rank in E.
  - simpl in E. apply sequential_forward_rank in E.
    eapply Forall_impl; [|exact IH]. simpl. intros f L. congruence.
Qed.

(* ================================================================== *)
(** ** Properties of [forward] that hold for any layers *)

Section ForwardProperties.

Context {Layer Tensor : Type} `{Callable Layer Tensor}.

(** C10. [forward] leaves the object as it found it, whether it returns or
    raises: [out_channels], [output_feature_shape], the six stages and the
    list [layers] are the same after the call as before. *)
Theorem forward_preserves_self (x : Tensor) (self : BasicModel Layer) :
  let self' := self_after (forward x) self in
  out_channels self' = out_channels self /\
  output_feature_shape self' = output_feature_shape self /\
  layer_1 self' = layer_1 self /\ layer_2 self' = layer_2 self /\
  layer_3 self' = layer_3 self /\ layer_4 self' = layer_4 self /\
  layer_5 self' = layer_5 self /\ layer_6 self' = layer_6 self /\
  layers self' = layers self /\
  self' = self.
Proof.
  intros self'. unfold self'. rewrite forward_self. repeat split.
Qed.

(** C6. [forward] is the sequential composition of the six stages, with
    no branch on the way: it returns [out] exactly when [out] is the list
    of the six activations in stage order, the first being [layer_1]
    applied to the input and each later one the next stage applied to the
    activation before it, and the shape and count checks accept them. *)
Theorem forward_sequential (x : Tensor) (self : BasicModel Layer) :
  layers self = [layer_1 self; layer_2 self; layer_3 self;
                 layer_4 self; layer_5 self; layer_6 self] ->
  forall out,
    result_of (forward x) self = Return out <->
    exists f1 f2 f3 f4 f5 f6,
      out = [f1; f2; f3; f4; f5; f6] /\
      call (layer_1 self) x = Return f1 /\
      call (layer_2 self) f1 = Return f2 /\
      call (layer_3 self) f2 = Return f3 /\
      call (layer_4 self) f3 = Return f4 /\
      call (layer_5 self) f4 = Return f5 /\
      call (layer_6 self) f5 = Return f6 /\
      (forall k f, nth_error out k = Some f ->
                   expected_shape_at self k = Some (slice_from_1 (shape f))) /\
      List.length (output_feature_shape self) = 6%nat.
Proof.
  intros L out. rewrite forward_Return, L. split.
  - intros (F & A & Len).
    repeat match goal with
    | F : feeds (_ :: _) _ _ |- _ => inversion F; subst; clear F
    | F : feeds [] _ _ |- _ => inversion F; subst; clear F
    end.
    do 6 eexists. repeat split; try eassumption. now rewrite <- Len.
  - intros (f1 & f2 & f3 & f4 & f5 & f6 & -> & C1 & C2 & C3 & C4 & C5 & C6 & A & Len).
    split; [|split; [exact A | now rewrite Len]].
    repeat (apply feeds_cons; [eassumption|]). constructor.
Qed.

(** C4. When the layers have produced their features and one of them
    differs in (channels, height, width) from the shape configured for its
    index, [forward] returns nothing; and when the sizes configured before
    that index are pairs, it fails the shape assertion, at the first index
    whose feature differs. *)
Theorem forward_mismatch_asserts (x : Tensor) (self : BasicModel Layer)
    fs k f expected :
  feeds (layers self) x fs ->
  nth_error fs k = Some f ->
  expected_shape_at self k = Some expected ->
  slice_from_1 (shape f) <> expected ->
  (forall out, result_of (forward x) self <> Return out) /\
  ((forall j t, (j < k)%nat ->
                nth_error (output_feature_shape self) j = Some t ->
                List.length t = 2%nat) ->
   exists j g expected',
     (j <= k)%nat /\ nth_error fs j = Some g /\
     expected_shape_at self j = Some expected' /\
     slice_from_1 (shape g) <> expected' /\
     result_of (forward x) self =
     Raise (AssertionError (ShapeMismatch expected' (slice_from_1 (shape g)) j))).
Proof.
  intros F Ef Ex N.
  assert (NR : forall out, result_of (forward x) self <> Return out).
  { intros out R. apply forward_Return in R as (F' & A & _).
    assert (out = fs) by now apply (feeds_functional _ _ _ _ F' F). subst out.
    apply A in Ef. congruence. }
  split; [exact NR|]. intros P.
  destruct (result_of (forward x) self) as [out|e] eqn:R.
  { exfalso. now apply (NR out). }
  apply forward_Raise in R
    as [R|(fs' & F' & [(k' & f' & Ef' & A & C)|(A & _ & _)])].
  - exfalso. now apply (feeds_not_raise _ _ _ _ F R).
  - assert (fs' = fs) by now apply (feeds_functional _ _ _ _ F' F). subst fs'.
    assert (Lk : (k' <= k)%nat).
    { destruct (Nat.le_gt_cases k' k) as [L|L]; [exact L|].
      exfalso. specialize (A k f L Ef). congruence. }
    apply expected_shape_at_Some in Ex as (c & h & w & E1 & E2 & E3).
    assert (K1 : (k < List.length (out_channels self))%nat)
      by (apply nth_error_Some; congruence).
    assert (K2 : (k < List.length (output_feature_shape self))%nat)
      by (apply nth_error_Some; congruence).
    inversion C as [E1'|c' E1' E2'|c' t E1' E2' L|ex E N']; subst.
    + apply nth_error_None in E1'. lia.
    + apply nth_error_None in E2'. lia.
    + exfalso. apply L. destruct (Nat.eq_dec k' k) as [->|D].
      * assert (t = [h; w]) by congruence. now subst.
      * apply (P k' t); [lia | assumption].
    + exists k', f', ex. auto.
  - assert (fs' = fs) by now apply (feeds_functional _ _ _ _ F' F). subst fs'.
    exfalso. apply A in Ef. congruence.
Qed.

End ForwardProperties.

(* ================================================================== *)
(** ** The stages of the constructor on the documented input *)

Lemma first_stage_forward n ic o :
  Torch.sequential_forward (first_stage ic o) (Torch.mkTensor [n; ic; 300; 300])
  = Return (Torch.mkTensor [n; o; 38; 38]).
Proof.
  unfold first_stage, conv3. cbn -[Z.eqb]. rewrite Z.eqb_refl. reflexivity.
Qed.

Lemma later_stage_forward n i mid o p s h w :
  (h + 2 <? 3) || (w + 2 <? 3) = false ->
  (h + 2 * p <? 3) || (w + 2 * p <? 3) = false ->
  Torch.sequential_forward (later_stage i mid o p s) (Torch.mkTensor [n; i; h; w])
  = Return (Torch.mkTensor
              [n; o; Torch.conv_out_size (Torch.conv_out_size h 3 1 1) 3 p s;
                     Torch.conv_out_size (Torch.conv_out_size w 3 1 1) 3 p s]).
Proof.
  intros B1 B2. unfold later_stage, conv3.
  cbn [Torch.sequential_forward Torch.module_forward Torch.conv2d_forward
       Torch.dims Torch.in_channels Torch.out_channels bind].
  rewrite !Z.eqb_refl. cbn [negb].
  unfold Torch.conv_hw at 1.
  cbn [Torch.kernel_size Torch.padding Torch.stride]. 
  replace (2 * 1) with 2 by reflexivity. rewrite B1.
  cbn [bind Torch.module_forward Torch.sequential_forward Torch.conv2d_forward
       Torch.dims Torch.in_channels Torch.out_channels].
  rewrite !Z.eqb_refl. cbn [negb].
  unfold Torch.conv_hw.
  cbn [Torch.kernel_size Torch.padding Torch.stride].
  replace (Torch.conv_out_size h 3 1 1) with h by (unfold Torch.conv_out_size; rewrite Z.div_1_r; lia).
  replace (Torch.conv_out_size w 3 1 1) with w by (unfold Torch.conv_out_size; rewrite Z.div_1_r; lia).
  rewrite B2. reflexivity.
Qed.

(** The six activations on a 300 x 300 input with [ic] channels. *)
Lemma documented_feeds n ic o0 o1 o2 o3 o4 o5 :
  feeds [first_stage ic o0; later_stage o0 128 o1 1 2;
         later_stage o1 256 o2 1 2; later_stage o2 128 o3 1 2;
         later_stage o3 128 o4 1 2; later_stage o4 128 o5 0 1]
        (Torch.mkTensor [n; ic; 300; 300])
        [Torch.mkTensor [n; o0; 38; 38]; Torch.mkTensor [n; o1; 19; 19];
         Torch.mkTensor [n; o2; 10; 10]; Torch.mkTensor [n; o3; 5; 5];
         Torch.mkTensor [n; o4; 3; 3]; Torch.mkTensor [n; o5; 1; 1]].
Proof.
  constructor; [apply first_stage_forward|].
  repeat (apply feeds_cons;
          [match goal with
           | |- call (later_stage ?i ?m ?o ?p ?s)
                     (Torch.mkTensor [?b; _; ?h; ?w]) = _ =>
               exact (later_stage_forward b i m o p s h w eq_refl eq_refl)
           end|]).
  constructor.
Qed.

Lemma final_conv_cons m l :
  final_conv (m :: l) =
  match final_conv l with
  | Some c => Some c
  | None => match m with Torch.Conv2d c => Some c | _ => None end
  end.
Proof.
  unfold final_conv. destruct m as [c| |k s]; simpl;
    try (destruct (hd_error (rev (convs l))); reflexivity).
  destruct (rev (convs l)); reflexivity.
Qed.

(** The channel count of a stage's output is the [out_channels] of its final
    convolution. *)
Lemma sequential_forward_channels l n c h w y :
  Torch.sequential_forward l (Torch.mkTensor [n; c; h; w]) = Return y ->
  exists h' w',
    Torch.dims y =
    [n; match final_conv l with Some cfg => Torch.out_channels cfg | None => c end;
     h'; w'].
Proof.
  revert c h w; induction l as [|m l IH]; intros c h w.
  - simpl. intros E. inversion E. simpl. eauto.
  - rewrite final_conv_cons. simpl.
    destruct (Torch.module_forward m _) as [[d]|e] eqn:E; simpl; [|discriminate].
    intros R.
    assert (D : exists h1 w1,
               d = [n; match m with Torch.Conv2d cfg => Torch.out_channels cfg
                                  | _ => c end; h1; w1]).
    { clear R. destruct m as [cfg| |k s]; simpl in E;
        unfold Torch.conv2d_forward, Torch.max_pool2d_forward,
               Torch.conv_hw, Torch.pool_hw in E; simpl in E;
        torch_cases; eauto. }
    destruct D as (h1 & w1 & ->).
    apply IH in R as (h' & w' & R). exists h', w'. rewrite R.
    destruct (final_conv l); [reflexivity | destruct m; reflexivity].
Qed.

(* ================================================================== *)
(** ** Properties of the constructed model *)

(** C2. On a 300 x 300 input the output-size arithmetic of the stages the
    constructor builds (3 x 3 convolutions with padding 1, the final
    convolution of the last stage with padding 0, 2 x 2 max-pools of stride
    2) gives 38, 19, 10, 5, 3 and 1 for stages 1 to 6, and these are the
    heights and widths of the activations the stages produce. *)
Theorem forward_stage_sizes oc ic ofs self :
  __init__ oc ic ofs = Return self ->
  stage_sizes (layers self) 300 = documented_sizes /\
  Forall (fun cfg => Torch.kernel_size cfg = 3 /\ Torch.padding cfg = 1)
         (List.concat (map convs (firstn 5 (layers self)))
            ++ removelast (convs (layer_6 self))) /\
  (exists cfg, final_conv (layer_6 self) = Some cfg /\
               Torch.kernel_size cfg = 3 /\ Torch.padding cfg = 0 /\
               Torch.stride cfg = 1) /\
  (forall n c fs,
     feeds (layers self) (Torch.mkTensor [n; c; 300; 300]) fs ->
     map (fun f => skipn 2 (Torch.dims f)) fs = documented_feature_sizes).
Proof.
  intros E.
  apply init_Return_inv in E
    as (o0 & o1 & o2 & o3 & o4 & o5 & rest & -> & _ & _ & _ & _ & _ & _ & _ & ->).
  assert (S : stage_sizes
                [first_stage ic o0; later_stage o0 128 o1 1 2;
                 later_stage o1 256 o2 1 2; later_stage o2 128 o3 1 2;
                 later_stage o3 128 o4 1 2; later_stage o4 128 o5 0 1] 300
              = documented_sizes) by reflexivity.
  split; [exact S|]. split; [|split].
  - cbn. repeat constructor.
  - eexists. cbn. repeat split.
  - intros n c fs F. apply feeds_batched in F as [_ F].
    cbn [layers] in F. rewrite S in F. exact F.
Qed.

(** C7. The constructor wires the channel counts of the configuration into
    the stages: the final convolution of stage i+1 has [out_channels]
    output_channels[i] (i = 0..5), the first convolution of stage i+2 has
    [in_channels] output_channels[i] (i = 0..4), and so the feature a stage
    returns on a batched input has output_channels[i] channels. *)
Theorem init_channels oc ic ofs self :
  __init__ oc ic ofs = Return self ->
  layers self = [layer_1 self; layer_2 self; layer_3 self;
                 layer_4 self; layer_5 self; layer_6 self] /\
  (forall i, (i < 6)%nat ->
     exists l cfg, nth_error (layers self) i = Some l /\
                   final_conv l = Some cfg /\
                   nth_error oc i = Some (Torch.out_channels cfg)) /\
  (forall i, (i < 5)%nat ->
     exists l cfg, nth_error (layers self) (S i) = Some l /\
                   first_conv l = Some cfg /\
                   nth_error oc i = Some (Torch.in_channels cfg)) /\
  (forall i l n c h w y,
     nth_error (layers self) i = Some l ->
     call l (Torch.mkTensor [n; c; h; w]) = Return y ->
     exists h' w' o, nth_error oc i = Some o /\ Torch.dims y = [n; o; h'; w']).
Proof.
  intros E.
  apply init_Return_inv in E
    as (o0 & o1 & o2 & o3 & o4 & o5 & rest & -> & _ & _ & _ & _ & _ & _ & _ & ->).
  cbn [layers layer_1 layer_2 layer_3 layer_4 layer_5 layer_6].
  split; [reflexivity|]. split; [|split].
  - intros i Li.
    destruct i as [|[|[|[|[|[|i]]]]]]; [| | | | | |lia];
      do 2 eexists; cbn; repeat split.
  - intros i Li.
    destruct i as [|[|[|[|[|i]]]]]; [| | | | |lia];
      do 2 eexists; cbn; repeat split.
  - intros i l n c h w y El Ey. simpl in Ey.
    apply sequential_forward_channels in Ey as (h' & w' & Ey).
    exists h', w'.
    destruct i as [|[|[|[|[|[|i]]]]]]; simpl in El;
      try (destruct i; discriminate);
      inversion El; subst l; eexists; (split; [reflexivity | exact Ey]).
Qed.

(** C5. When [forward] returns, it returns as many features as
    output_feature_sizes has entries; the model has six stages, so a return
    means the configured list has exactly six entries. *)
Theorem forward_count oc ic ofs self (x : Torch.Tensor) out :
  __init__ oc ic ofs = Return self ->
  result_of (forward x) self = Return out ->
  List.length out = List.length (output_feature_shape self) /\
  output_feature_shape self = ofs /\
  List.length out = 6%nat /\
  List.length ofs = 6%nat.
Proof.
  intros E R.
  apply init_Return_inv in E
    as (o0 & o1 & o2 & o3 & o4 & o5 & rest & -> & _ & _ & _ & _ & _ & _ & _ & ->).
  apply forward_Return in R as (F & _ & L).
  apply feeds_length in F. cbn [layers output_feature_shape] in *.
  simpl in F. repeat split; congruence.
Qed.

(** C1, amended. For a constructed model with a positive image channel
    count and positive first six output channel counts, on an input of shape
    (n, image_channels, 300, 300): when output_feature_sizes is the
    documented list the forward pass returns exactly six tensors, the i-th
    of shape (n, output_channels[i], h_i, w_i), and for any other
    output_feature_sizes it returns nothing. *)
Theorem forward_documented oc ic ofs self n :
  __init__ oc ic ofs = Return self ->
  0 < ic ->
  Forall (fun c => 0 < c) (firstn 6 oc) ->
  (ofs = documented_feature_sizes ->
   exists out,
     result_of (forward (Torch.mkTensor [n; ic; 300; 300])) self = Return out /\
     List.length out = 6%nat /\
     forall i, (i < 6)%nat ->
       exists f c h w, nth_error out i = Some f /\
                       nth_error oc i = Some c /\
                       nth_error ofs i = Some [h; w] /\
                       Torch.dims f = [n; c; h; w]) /\
  (ofs <> documented_feature_sizes ->
   forall out,
     result_of (forward (Torch.mkTensor [n; ic; 300; 300])) self <> Return out).
Proof.
  intros E _ _.
  apply init_Return_inv in E
    as (o0 & o1 & o2 & o3 & o4 & o5 & rest & -> & _ & _ & _ & _ & _ & _ & _ & ->).
  split.
  - intros ->. eexists. split; [|split].
    + apply forward_Return. cbn [layers output_feature_shape]. split; [|split].
      * apply documented_feeds.
      * intros k f Ef.
        destruct k as [|[|[|[|[|[|k]]]]]]; simpl in Ef;
          try (destruct k; discriminate); inversion Ef; reflexivity.
      * reflexivity.
    + reflexivity.
    + intros i Li.
      destruct i as [|[|[|[|[|[|i]]]]]]; [| | | | | |lia];
        do 4 eexists; cbn; repeat split.
  - intros N out R. apply N. clear N.
    apply forward_Return in R as (F & A & Len).
    cbn [layers output_feature_shape] in *.
    pose proof (documented_feeds n ic o0 o1 o2 o3 o4 o5) as F'.
    pose proof (feeds_functional _ _ _ _ F F'). subst out. clear F F'.
    simpl in Len.
    destruct ofs as [|s0 [|s1 [|s2 [|s3 [|s4 [|s5 [|s6 ofs]]]]]]];
      simpl in Len; try discriminate.
    pose proof (A 0%nat _ eq_refl) as A0. pose proof (A 1%nat _ eq_refl) as A1.
    pose proof (A 2%nat _ eq_refl) as A2. pose proof (A 3%nat _ eq_refl) as A3.
    pose proof (A 4%nat _ eq_refl) as A4. pose proof (A 5%nat _ eq_refl) as A5.
    clear A. unfold expected_shape_at, documented_feature_sizes in *.
    cbn [nth_error out_channels output_feature_shape shape torch_callable
         Torch.dims slice_from_1 tl] in *.
    repeat match goal with
    | A : match ?s with [] => _ | _ :: _ => _ end = Some _ |- _ =>
        destruct s as [|? [|? [|? ?]]]; try discriminate A; inversion A; subst; clear A
    end.
    reflexivity.
Qed.

(** C3, amended. For a constructed model with at least six configured
    sizes the forward pass fails in these ways and no other: a RuntimeError
    raised by a layer propagates; or, the six features being computed and
    the checks of all earlier indices having passed, the checking loop
    raises ValueError at an index whose configured size is not a pair, or
    the shape assertion at the first index whose feature differs from the
    configured shape; or, all six shapes matching, the count assertion is
    raised because more than six sizes are configured. *)
Theorem forward_failures oc ic ofs self (x : Torch.Tensor) e :
  __init__ oc ic ofs = Return self ->
  (6 <= List.length ofs)%nat ->
  result_of (forward x) self = Raise e ->
  (e = RuntimeError /\ feeds_raise (layers self) x e) \/
  (exists fs,
     feeds (layers self) x fs /\
     ((exists k f t,
         nth_error fs k = Some f /\
         (forall j g, (j < k)%nat -> nth_error fs j = Some g ->
                      expected_shape_at self j = Some (slice_from_1 (Torch.dims g))) /\
         nth_error ofs k = Some t /\ List.length t <> 2%nat /\
         e = ValueError) \/
      (exists k f expected,
         nth_error fs k = Some f /\
         (forall j g, (j < k)%nat -> nth_error fs j = Some g ->
                      expected_shape_at self j = Some (slice_from_1 (Torch.dims g))) /\
         expected_shape_at self k = Some expected /\
         slice_from_1 (Torch.dims f) <> expected /\
         e = AssertionError (ShapeMismatch expected (slice_from_1 (Torch.dims f)) k)) \/
      ((6 < List.length ofs)%nat /\
       (forall k f, nth_error fs k = Some f ->
                    expected_shape_at self k = Some (slice_from_1 (Torch.dims f))) /\
       e = AssertionError (CountMismatch (List.length ofs) 6)))).
Proof.
  intros E L6 R.
  apply init_Return_inv in E
    as (o0 & o1 & o2 & o3 & o4 & o5 & rest & -> & _ & _ & _ & _ & _ & _ & _ & ->).
  apply forward_Raise in R
    as [R|(fs & F & [(k & f & Ef & A & C)|(A & L & ->)])].
  - left. split; [now apply feeds_raise_runtime in R | exact R].
  - right. exists fs. split; [exact F|].
    pose proof (feeds_length _ _ _ F) as Lf. cbn [layers] in Lf. simpl in Lf.
    assert (Lk : (k < 6)%nat) by (rewrite <- Lf; apply nth_error_Some; congruence).
    cbn [out_channels output_feature_shape] in *.
    inversion C as [E1|c E1 E2|c t E1 E2 Lt|ex Ex N]; subst;
      cbn [out_channels output_feature_shape] in *.
    + apply nth_error_None in E1. simpl in E1. lia.
    + apply nth_error_None in E2. lia.
    + left. exists k, f, t. auto.
    + right. left. exists k, f, ex. auto.
  - right. exists fs. split; [exact F|].
    pose proof (feeds_length _ _ _ F) as Lf. cbn [layers] in Lf. simpl in Lf.
    cbn [output_feature_shape] in *. rewrite Lf in *.
    right. right. split; [lia|]. split; [exact A | reflexivity].
Qed.


(* ================================================================== *)
(** ** The batch dimension *)

Lemma with_batch_slice n (f : Torch.Tensor) :
  Torch.dims f <> [] ->
  slice_from_1 (Torch.dims (with_batch n f)) = slice_from_1 (Torch.dims f).
Proof.
  unfold with_batch. destruct (Torch.dims f) as [|d rest] eqn:E; [congruence|].
  reflexivity.
Qed.

(** The checking loop reads [feature.shape[1:]] and nothing else of a
    feature. *)
Lemma for_features_slice (self : BasicModel Torch.Sequential) fs fs' idx :
  map (fun f => slice_from_1 (Torch.dims f)) fs
  = map (fun f => slice_from_1 (Torch.dims f)) fs' ->
  for_features idx fs self = for_features idx fs' self.
Proof.
  revert fs' idx; induction fs as [|f fs IH]; intros [|f' fs'] idx E;
    try discriminate E; [reflexivity|].
  simpl in E. inversion E as [[E1 E2]].
  rewrite !for_features_cons. cbn [shape torch_callable]. rewrite E1.
  destruct (nth_error (out_channels self) idx); [|reflexivity].
  destruct (nth_error (output_feature_shape self) idx) as [t|]; [|reflexivity].
  destruct (unpack2 t) as [[h w]|e]; [|reflexivity].
  destruct (tuple_eqb _ _); [now apply IH | reflexivity].
Qed.

(** C9. The shape check reads dimensions 1 to 3 of each feature and not
    dimension 0.  When the forward pass returns, every returned feature has
    the batch size of the input; the checking loop gives the same outcome on
    features that agree from dimension 1 on; and the same input with any
    other batch size is accepted as well, with the same features up to
    their batch size. *)
Theorem forward_batch (self : BasicModel Torch.Sequential) (x : Torch.Tensor) out :
  result_of (forward x) self = Return out ->
  Forall (fun f => exists n c h w c' h' w',
                     Torch.dims x = [n; c; h; w] /\
                     Torch.dims f = [n; c'; h'; w']) out /\
  (forall fs fs' idx,
     map (fun f => slice_from_1 (Torch.dims f)) fs
     = map (fun f => slice_from_1 (Torch.dims f)) fs' ->
     result_of (for_features idx fs) self = result_of (for_features idx fs') self) /\
  (forall n', result_of (forward (with_batch n' x)) self
              = Return (map (with_batch n') out)).
Proof.
  intros R. apply forward_Return in R as (F & A & Len).
  assert (Hslice : forall fs fs' idx,
     map (fun f => slice_from_1 (Torch.dims f)) fs
     = map (fun f => slice_from_1 (Torch.dims f)) fs' ->
     result_of (for_features idx fs) self = result_of (for_features idx fs') self).
  { intros fs fs' idx E. unfold result_of. now rewrite (for_features_slice self fs fs' idx E). }
  destruct out as [|f0 out].
  { split; [constructor|]. split; [exact Hslice|]. intros n'.
    inversion F as [x' L|]; subst. apply forward_Return.
    rewrite <- L. split; [constructor|]. split; [|exact Len].
    intros [|k] f E; discriminate E. }
  assert (R4 : forall k f, nth_error (f0 :: out) k = Some f ->
                           List.length (Torch.dims f) = 4%nat).
  { intros k f Ef. apply A in Ef.
    apply expected_shape_at_Some in Ef as (c & h & w & _ & _ & E).
    cbn [shape torch_callable] in E. unfold slice_from_1 in E.
    destruct (Torch.dims f) as [|d rest]; simpl in E; [discriminate|].
    subst rest. reflexivity. }
  pose proof (feeds_rank _ _ _ F) as Rk.
  assert (X : exists n c h w, Torch.dims x = [n; c; h; w]).
  { apply rank4_inv. inversion Rk as [|f l Ef _]; subst.
    rewrite <- Ef. now apply (R4 0%nat). }
  destruct X as (n & c & h & w & X). destruct x as [d]. simpl in X. subst d.
  split; [|split; [exact Hslice|]].
  - apply feeds_batched in F as [B _].
    eapply Forall_impl; [|exact B]. simpl.
    intros f (c' & h' & w' & E). exists n, c, h, w, c', h', w'. auto.
  - intros n'. apply forward_Return. split; [|split].
    + exact (feeds_with_batch _ n n' c h w _ F).
    + intros k f' Ef'. rewrite nth_error_map in Ef'.
      destruct (nth_error (f0 :: out) k) as [f|] eqn:Ef; [|discriminate].
      simpl in Ef'. inversion Ef'; subst f'.
      cbn [shape torch_callable]. rewrite with_batch_slice.
      * now apply A.
      * apply R4 in Ef. destruct (Torch.dims f); [discriminate | congruence].
    + rewrite length_map. exact Len.
Qed.

End Constructed.

(* ================================================================== *)
(** ** The example configuration *)

Lemma example_model_init :
  __init__ (mem := example_memory) example_output_channels 3 documented_feature_sizes
  = Return example_model.
Proof. reflexivity. Qed.

Lemma example_model_init_with ofs :
  __init__ (mem := example_memory) example_output_channels 3 ofs
  = Return (with_feature_sizes ofs example_model).
Proof. reflexivity. Qed.

Lemma example_model_forward :
  result_of (forward example_image) example_model = Return example_features.
Proof. reflexivity. Qed.

(** The two assertion messages, as the f-strings render them. *)
Lemma describe_examples :
  describe (ShapeMismatch [64; 2; 2] [64; 1; 1] 5)
  = "Expected shape: (64, 2, 2), got: torch.Size([64, 1, 1]) at output IDX: 5"%string /\
  describe (CountMismatch 7 6)
  = "Expected that the length of the outputted features to be: 7, but it was: 6"%string.
Proof. split; reflexivity. Qed.

Lemma example_feeds : feeds (layers example_model) example_image example_features.
Proof. apply (documented_feeds 1 3 128 256 128 128 64 64). Qed.

Lemma example_channels_positive :
  Forall (fun c => 0 < c) (firstn 6 example_output_channels).
Proof. repeat constructor. Qed.

(** C1, as stated, fails: with the last configured size (2, 2) instead of
    (1, 1) the forward pass on a 1 x 3 x 300 x 300 input raises the shape
    assertion and returns nothing. *)
Lemma forward_documented_counterexample :
  ~ (forall (mem : Torch.Memory) oc ic ofs self n,
       __init__ (mem := mem) oc ic ofs = Return self ->
       exists out,
         result_of (forward (Torch.mkTensor [n; ic; 300; 300])) self = Return out /\
         List.length out = 6%nat /\
         forall i, (i < 6)%nat ->
           exists f c h w, nth_error out i = Some f /\
                           nth_error oc i = Some c /\
                           nth_error ofs i = Some [h; w] /\
                           skipn 1 (Torch.dims f) = [c; h; w]).
Proof.
  intros C.
  destruct (C example_memory example_output_channels 3 mismatched_feature_sizes _ 1
              (example_model_init_with mismatched_feature_sizes))
    as (out & R & _).
  vm_compute in R. discriminate R.
Qed.

(** C3, as stated, fails: on a one-channel image a model constructed for
    three image channels, with the documented sizes, raises the RuntimeError
    of its first convolution, which is not an assertion failure. *)
Lemma forward_failures_counterexample :
  ~ (forall (mem : Torch.Memory) oc ic ofs self (x : Torch.Tensor) e,
       __init__ (mem := mem) oc ic ofs = Return self ->
       result_of (forward x) self = Raise e ->
       exists msg, e = AssertionError msg).
Proof.
  intros C.
  destruct (C example_memory example_output_channels 3 documented_feature_sizes _
              (Torch.mkTensor [1; 1; 300; 300]) RuntimeError
              example_model_init eq_refl)
    as (msg & E).
  discriminate E.
Qed.


(* ================================================================== *)
(** ** The theorems at the example configuration *)

Lemma forward_sequential_witness :
  layers example_model
  = [layer_1 example_model; layer_2 example_model; layer_3 example_model;
     layer_4 example_model; layer_5 example_model; layer_6 example_model] /\
  exists f1 f2 f3 f4 f5 f6,
    example_features = [f1; f2; f3; f4; f5; f6] /\
    call (layer_1 example_model) example_image = Return f1 /\
    call (layer_2 example_model) f1 = Return f2 /\
    call (layer_3 example_model) f2 = Return f3 /\
    call (layer_4 example_model) f3 = Return f4 /\
    call (layer_5 example_model) f4 = Return f5 /\
    call (layer_6 example_model) f5 = Return f6 /\
    (forall k f, nth_error example_features k = Some f ->
                 expected_shape_at example_model k = Some (slice_from_1 (shape f))) /\
    List.length (output_feature_shape example_model) = 6%nat.
Proof.
  split; [reflexivity|].
  apply (forward_sequential example_image example_model eq_refl example_features).
  reflexivity.
Defined.

Lemma forward_mismatch_asserts_witness :
  let self := with_feature_sizes mismatched_feature_sizes example_model in
  let f := Torch.mkTensor [1; 64; 1; 1] in
  (feeds (layers self) example_image example_features /\
   nth_error example_features 5 = Some f /\
   expected_shape_at self 5 = Some [64; 2; 2] /\
   slice_from_1 (shape f) <> [64; 2; 2]) /\
  (forall out, result_of (forward example_image) self <> Return out) /\
  ((forall j t, (j < 5)%nat ->
                nth_error (output_feature_shape self) j = Some t ->
                List.length t = 2%nat) ->
   exists j g expected',
     (j <= 5)%nat /\ nth_error example_features j = Some g /\
     expected_shape_at self j = Some expected' /\
     slice_from_1 (shape g) <> expected' /\
     result_of (forward example_image) self =
     Raise (AssertionError (ShapeMismatch expected' (slice_from_1 (shape g)) j))).
Proof.
  intros self f.
  assert (N : slice_from_1 (shape f) <> [64; 2; 2]) by (vm_compute; discriminate).
  split.
  - split; [exact example_feeds|]. split; [reflexivity|]. split; [reflexivity|exact N].
  - apply (forward_mismatch_asserts example_image self example_features 5 f [64; 2; 2]).
    + exact example_feeds.
    + reflexivity.
    + reflexivity.
    + exact N.
Defined.

Lemma forward_stage_sizes_witness :
  __init__ (mem := example_memory) example_output_channels 3 documented_feature_sizes
  = Return example_model /\
  stage_sizes (layers example_model) 300 = documented_sizes.
Proof.
  split; [reflexivity|].
  apply (forward_stage_sizes (mem := example_memory) example_output_channels 3
           documented_feature_sizes example_model).
  reflexivity.
Defined.

Lemma init_channels_witness :
  __init__ (mem := example_memory) example_output_channels 3 documented_feature_sizes
  = Return example_model /\
  forall i, (i < 6)%nat ->
    exists l cfg, nth_error (layers example_model) i = Some l /\
                  final_conv l = Some cfg /\
                  nth_error example_output_channels i = Some (Torch.out_channels cfg).
Proof.
  split; [reflexivity|].
  apply (init_channels (mem := example_memory) example_output_channels 3
           documented_feature_sizes example_model).
  reflexivity.
Defined.

Lemma forward_count_witness :
  __init__ (mem := example_memory) example_output_channels 3 documented_feature_sizes
  = Return example_model /\
  result_of (forward example_image) example_model = Return example_features /\
  List.length example_features = List.length (output_feature_shape example_model) /\
  output_feature_shape example_model = documented_feature_sizes /\
  List.length example_features = 6%nat /\
  List.length documented_feature_sizes = 6%nat.
Proof.
  split; [reflexivity|]. split; [reflexivity|].
  apply (forward_count (mem := example_memory) example_output_channels 3
           documented_feature_sizes example_model example_image example_features);
    reflexivity.
Defined.

Lemma forward_documented_witness :
  (__init__ (mem := example_memory) example_output_channels 3 documented_feature_sizes
   = Return example_model /\
   0 < 3 /\
   Forall (fun c => 0 < c) (firstn 6 example_output_channels)) /\
  (documented_feature_sizes = documented_feature_sizes ->
   exists out,
     result_of (forward (Torch.mkTensor [1; 3; 300; 300])) example_model = Return out /\
     List.length out = 6%nat /\
     forall i, (i < 6)%nat ->
       exists f c h w, nth_error out i = Some f /\
                       nth_error example_output_channels i = Some c /\
                       nth_error documented_feature_sizes i = Some [h; w] /\
                       Torch.dims f = [1; c; h; w]) /\
  (documented_feature_sizes <> documented_feature_sizes ->
   forall out,
     result_of (forward (Torch.mkTensor [1; 3; 300; 300])) example_model
     <> Return out).
Proof.
  assert (I : 0 < 3) by lia.
  split; [split; [reflexivity | split; [exact I | exact example_channels_positive]]|].
  exact (forward_documented (mem := example_memory) example_output_channels 3
           documented_feature_sizes example_model 1 eq_refl I
           example_channels_positive).
Defined.

Lemma forward_failures_witness :
  let self := with_feature_sizes mismatched_feature_sizes example_model in
  let e := AssertionError (ShapeMismatch [64; 2; 2] [64; 1; 1] 5) in
  (__init__ (mem := example_memory) example_output_channels 3 mismatched_feature_sizes
   = Return self /\
   (6 <= List.length mismatched_feature_sizes)%nat /\
   result_of (forward example_image) self = Raise e) /\
  ((e = RuntimeError /\ feeds_raise (layers self) example_image e) \/
   (exists fs,
      feeds (layers self) example_image fs /\
      ((exists k f t,
          nth_error fs k = Some f /\
          (forall j g, (j < k)%nat -> nth_error fs j = Some g ->
                       expected_shape_at self j = Some (slice_from_1 (Torch.dims g))) /\
          nth_error mismatched_feature_sizes k = Some t /\ List.length t <> 2%nat /\
          e = ValueError) \/
       (exists k f expected,
          nth_error fs k = Some f /\
          (forall j g, (j < k)%nat -> nth_error fs j = Some g ->
                       expected_shape_at self j = Some (slice_from_1 (Torch.dims g))) /\
          expected_shape_at self k = Some expected /\
          slice_from_1 (Torch.dims f) <> expected /\
          e = AssertionError (ShapeMismatch expected (slice_from_1 (Torch.dims f)) k)) \/
       ((6 < List.length mismatched_feature_sizes)%nat /\
        (forall k f, nth_error fs k = Some f ->
                     expected_shape_at self k = Some (slice_from_1 (Torch.dims f))) /\
        e = AssertionError (CountMismatch (List.length mismatched_feature_sizes) 6))))).
Proof.
  intros self e.
  assert (L : (6 <= List.length mismatched_feature_sizes)%nat) by (simpl; lia).
  split; [split; [reflexivity | split; [exact L | reflexivity]]|].
  exact (forward_failures (mem := example_memory) example_output_channels 3
           mismatched_feature_sizes self example_image e eq_refl L eq_refl).
Defined.


Lemma forward_batch_witness :
  result_of (forward example_image) example_model = Return example_features /\
  Forall (fun f => exists n c h w c' h' w',
                     Torch.dims example_image = [n; c; h; w] /\
                     Torch.dims f = [n; c'; h'; w']) example_features /\
  (forall n', result_of (forward (with_batch n' example_image)) example_model
              = Return (map (with_batch n') example_features)).
Proof.
  split; [reflexivity|].
  destruct (forward_batch example_model example_image example_features eq_refl)
    as (B & _ & W).
  split; [exact B | exact W].
Defined.

(* ================================================================== *)
(** ** The stages on inputs of any size *)

Section Further.

Context {mem : Torch.Memory}.

Ltac size_facts :=
  repeat match goal with
  | H : (_ || _) = true |- _ => apply orb_true_iff in H
  | H : (_ || _) = false |- _ => apply orb_false_iff in H; destruct H
  | H : (_ && _) = true |- _ => apply andb_true_iff in H; destruct H
  | H : (_ && _) = false |- _ => apply andb_false_iff in H
  | H : (_ <? _) = true |- _ => apply Z.ltb_lt in H
  | H : (_ <? _) = false |- _ => apply Z.ltb_ge in H
  | H : (_ <=? _) = true |- _ => apply Z.leb_le in H
  | H : (_ <=? _) = false |- _ => apply Z.leb_gt in H
  end.

Ltac size_arith :=
  unfold first_stage_size, halved_size, final_stage_size,
         Torch.conv_out_size, Torch.pool_out_size in *;
  size_facts; Z.div_mod_to_equations; lia.

Lemma conv3_forward n i o p s h w :
  Torch.module_forward (conv3 i o p s) (Torch.mkTensor [n; i; h; w]) =
  if (h + 2 * p <? 3) || (w + 2 * p <? 3) then Raise RuntimeError
  else Return (Torch.mkTensor [n; o; Torch.conv_out_size h 3 p s;
                               Torch.conv_out_size w 3 p s]).
Proof.
  unfold conv3.
  cbn [Torch.module_forward Torch.conv2d_forward Torch.dims
       Torch.in_channels Torch.out_channels].
  rewrite Z.eqb_refl. cbn [negb]. unfold Torch.conv_hw.
  cbn [Torch.kernel_size Torch.padding Torch.stride].
  destruct (_ || _); reflexivity.
Qed.

Lemma conv3_forward_channels n c i o p s h w :
  c <> i ->
  Torch.module_forward (conv3 i o p s) (Torch.mkTensor [n; c; h; w])
  = Raise RuntimeError.
Proof.
  intros N. unfold conv3.
  cbn [Torch.module_forward Torch.conv2d_forward Torch.dims Torch.in_channels].
  apply Z.eqb_neq in N. rewrite N. reflexivity.
Qed.

Lemma pool_forward n c h w :
  Torch.module_forward (Torch.MaxPool2d 2 2) (Torch.mkTensor [n; c; h; w]) =
  if (Torch.pool_out_size h 2 2 <? 1) || (Torch.pool_out_size w 2 2 <? 1)
  then Raise RuntimeError
  else Return (Torch.mkTensor [n; c; Torch.pool_out_size h 2 2;
                               Torch.pool_out_size w 2 2]).
Proof.
  cbn [Torch.module_forward Torch.max_pool2d_forward Torch.dims].
  unfold Torch.pool_hw. destruct (_ || _); reflexivity.
Qed.

Lemma relu_forward t : Torch.module_forward Torch.ReLU t = Return t.
Proof. reflexivity. Qed.

Ltac stage_step :=
  cbn [Torch.sequential_forward bind];
  repeat (rewrite relu_forward; cbn [bind]);
  first [rewrite conv3_forward | rewrite pool_forward];
  match goal with
  | |- context [if ?b then Raise RuntimeError else _] =>
      let E := fresh "E" in destruct b eqn:E
  end;
  cbn [bind].

Ltac stage_close :=
  cbn [Torch.sequential_forward bind];
  repeat (rewrite relu_forward; cbn [bind]);
  match goal with
  | |- _ = (if ?b then _ else _) =>
      let T := fresh "T" in destruct b eqn:T
  end;
  first [ reflexivity
        | exfalso; size_arith
        | do 2 f_equal; repeat (f_equal; try size_arith) ].

(** The first stage needs a height and a width of at least 4. *)
Lemma first_stage_forward_any n ic o h w :
  Torch.sequential_forward (first_stage ic o) (Torch.mkTensor [n; ic; h; w]) =
  if (4 <=? h) && (4 <=? w)
  then Return (Torch.mkTensor [n; o; first_stage_size h; first_stage_size w])
  else Raise RuntimeError.
Proof.
  unfold first_stage.
  do 6 (stage_step; [stage_close|]).
  stage_close.
Qed.

(** A stage ending in a stride-2 convolution needs a non-empty image. *)
Lemma halving_stage_forward n i mid o h w :
  Torch.sequential_forward (later_stage i mid o 1 2) (Torch.mkTensor [n; i; h; w]) =
  if (1 <=? h) && (1 <=? w)
  then Return (Torch.mkTensor [n; o; halved_size h; halved_size w])
  else Raise RuntimeError.
Proof.
  unfold later_stage.
  do 2 (stage_step; [stage_close|]).
  stage_close.
Qed.

(** The last stage needs a height and a width of at least 3. *)
Lemma final_stage_forward n i mid o h w :
  Torch.sequential_forward (later_stage i mid o 0 1) (Torch.mkTensor [n; i; h; w]) =
  if (3 <=? h) && (3 <=? w)
  then Return (Torch.mkTensor [n; o; final_stage_size h; final_stage_size w])
  else Raise RuntimeError.
Proof.
  unfold later_stage.
  do 2 (stage_step; [stage_close|]).
  stage_close.
Qed.

Ltac call_stage E :=
  cbn [call torch_callable] in E;
  first [ rewrite first_stage_forward_any in E
        | rewrite halving_stage_forward in E
        | rewrite final_stage_forward in E ];
  match type of E with
  | (if ?b then _ else _) = _ =>
      let T := fresh "T" in
      destruct b eqn:T; [inversion E; subst; clear E | discriminate E]
  end.

(** The six stages accept a batched input with the right channel count
    exactly when it is at least 260 x 260, and then produce
    [feature_shapes]. *)
Lemma stages_feeds n ic o0 o1 o2 o3 o4 o5 rest h w fs :
  feeds [first_stage ic o0; later_stage o0 128 o1 1 2;
         later_stage o1 256 o2 1 2; later_stage o2 128 o3 1 2;
         later_stage o3 128 o4 1 2; later_stage o4 128 o5 0 1]
        (Torch.mkTensor [n; ic; h; w]) fs <->
  260 <= h /\ 260 <= w /\
  fs = feature_shapes n (o0 :: o1 :: o2 :: o3 :: o4 :: o5 :: rest) h w.
Proof.
  split.
  - intros F.
    repeat match goal with
    | F : feeds (_ :: _) _ _ |- _ =>
        let E := fresh "E" in
        inversion F as [|? ? ? ? ? E ?]; subst; clear F; call_stage E
    | F : feeds [] _ _ |- _ => inversion F; subst; clear F
    end.
    split; [size_arith|]. split; [size_arith|]. reflexivity.
  - intros (Hh & Hw & ->).
    cbn [feature_shapes computed_feature_sizes feature_sizes firstn combine map
         fst snd].
    repeat (apply feeds_cons;
            [cbn [call torch_callable];
             first [ rewrite first_stage_forward_any
                   | rewrite halving_stage_forward
                   | rewrite final_stage_forward ];
             match goal with
             | |- (if ?b then _ else _) = _ =>
                 let T := fresh "T" in
                 destruct b eqn:T; [reflexivity | exfalso; size_arith]
             end|]).
    constructor.
Qed.

(* ================================================================== *)
(** ** Further properties of the constructed stages *)

(** X1. [layer_1] of a constructed model, on a batched input with
    image_channels channels, raises RuntimeError when the height or the
    width is below 4 and otherwise returns a tensor of shape
    (n, output_channels[0], floor((floor(h/4)+1)/2), floor((floor(w/4)+1)/2)):
    the first stage divides the image size by 8. *)
Theorem layer_1_forward oc ic ofs self n h w :
  __init__ oc ic ofs = Return self ->
  0 < ic -> Forall (fun c => 0 < c) oc ->
  exists o0,
    nth_error oc 0 = Some o0 /\
    call (layer_1 self) (Torch.mkTensor [n; ic; h; w]) =
    if (4 <=? h) && (4 <=? w)
    then Return (Torch.mkTensor [n; o0; (h / 4 + 1) / 2; (w / 4 + 1) / 2])
    else Raise RuntimeError.
Proof.
  intros E _ _.
  apply init_Return_inv in E
    as (o0 & o1 & o2 & o3 & o4 & o5 & rest & -> & _ & _ & _ & _ & _ & _ & _ & ->).
  exists o0. split; [reflexivity|].
  cbn [layer_1 call torch_callable]. apply first_stage_forward_any.
Qed.

(** X2. Each of [layer_2] to [layer_5] of a constructed model takes a
    batched input with output_channels[k-1] channels, raises RuntimeError
    when it has no rows or no columns, and otherwise returns
    output_channels[k] channels with height and width halved, rounding up. *)
Theorem halving_layers_forward oc ic ofs self k l n h w :
  __init__ oc ic ofs = Return self ->
  0 < ic -> Forall (fun c => 0 < c) oc ->
  (1 <= k <= 4)%nat ->
  nth_error (layers self) k = Some l ->
  exists i o,
    nth_error oc (k - 1) = Some i /\
    nth_error oc k = Some o /\
    call l (Torch.mkTensor [n; i; h; w]) =
    if (1 <=? h) && (1 <=? w)
    then Return (Torch.mkTensor [n; o; (h + 1) / 2; (w + 1) / 2])
    else Raise RuntimeError.
Proof.
  intros E _ _ K El.
  apply init_Return_inv in E
    as (o0 & o1 & o2 & o3 & o4 & o5 & rest & -> & _ & _ & _ & _ & _ & _ & _ & ->).
  cbn [layers] in El.
  destruct k as [|[|[|[|[|k]]]]]; try lia; simpl in El; inversion El; subst l;
    do 2 eexists; (split; [reflexivity|]); (split; [reflexivity|]);
    cbn [call torch_callable]; apply halving_stage_forward.
Qed.

(** X3. [layer_6] of a constructed model takes a batched input with
    output_channels[4] channels, raises RuntimeError when the height or
    the width is below 3 (its final convolution has no padding), and
    otherwise returns output_channels[5] channels with height and width
    reduced by 2. *)
Theorem layer_6_forward oc ic ofs self n h w :
  __init__ oc ic ofs = Return self ->
  0 < ic -> Forall (fun c => 0 < c) oc ->
  exists o4 o5,
    nth_error oc 4 = Some o4 /\
    nth_error oc 5 = Some o5 /\
    call (layer_6 self) (Torch.mkTensor [n; o4; h; w]) =
    if (3 <=? h) && (3 <=? w)
    then Return (Torch.mkTensor [n; o5; h - 2; w - 2])
    else Raise RuntimeError.
Proof.
  intros E _ _.
  apply init_Return_inv in E
    as (o0 & o1 & o2 & o3 & o4 & o5 & rest & -> & _ & _ & _ & _ & _ & _ & _ & ->).
  exists o4, o5. split; [reflexivity|]. split; [reflexivity|].
  cbn [layer_6 call torch_callable]. apply final_stage_forward.
Qed.

(** The shape and count checks accept the features of an h x w input
    exactly when the configured sizes are the computed ones. *)
Lemma checks_computed (self : BasicModel Torch.Sequential)
    o0 o1 o2 o3 o4 o5 rest n h w :
  out_channels self = o0 :: o1 :: o2 :: o3 :: o4 :: o5 :: rest ->
  let fs := feature_shapes n (out_channels self) h w in
  ((forall k f, nth_error fs k = Some f ->
                expected_shape_at self k = Some (slice_from_1 (shape f))) /\
   List.length fs = List.length (output_feature_shape self)) <->
  output_feature_shape self = computed_feature_sizes h w.
Proof.
  intros Eoc fs. subst fs. unfold expected_shape_at. rewrite Eoc.
  cbn [feature_shapes computed_feature_sizes feature_sizes firstn combine map
       fst snd List.length].
  split.
  - intros (A & Len).
    destruct (output_feature_shape self)
      as [|s0 [|s1 [|s2 [|s3 [|s4 [|s5 [|s6 ofs]]]]]]];
      simpl in Len; try discriminate.
    pose proof (A 0%nat _ eq_refl) as A0. pose proof (A 1%nat _ eq_refl) as A1.
    pose proof (A 2%nat _ eq_refl) as A2. pose proof (A 3%nat _ eq_refl) as A3.
    pose proof (A 4%nat _ eq_refl) as A4. pose proof (A 5%nat _ eq_refl) as A5.
    clear A.
    cbn [nth_error shape torch_callable Torch.dims slice_from_1 tl] in *.
    repeat match goal with
    | A : match ?s with [] => _ | _ :: _ => _ end = Some _ |- _ =>
        destruct s as [|? [|? [|? ?]]]; try discriminate A;
        inversion A; subst; clear A
    end.
    reflexivity.
  - intros ->. split; [|reflexivity].
    intros k f Ef.
    destruct k as [|[|[|[|[|[|k]]]]]]; simpl in Ef;
      try (destruct k; discriminate); inversion Ef; reflexivity.
Qed.

(** X4. The six stages of a constructed model accept a batched input with
    image_channels channels exactly when its height and width are at least
    260, and the features then have the shapes
    (n, output_channels[i], s_i(h), s_i(w)) of [feature_shapes]; on a
    smaller input the forward pass raises RuntimeError whatever sizes are
    configured. *)
Theorem stages_accept oc ic ofs self n h w :
  __init__ oc ic ofs = Return self ->
  0 < ic -> Forall (fun c => 0 < c) oc ->
  (forall fs,
     feeds (layers self) (Torch.mkTensor [n; ic; h; w]) fs <->
     260 <= h /\ 260 <= w /\ fs = feature_shapes n oc h w) /\
  (~ (260 <= h /\ 260 <= w) ->
   result_of (forward (Torch.mkTensor [n; ic; h; w])) self = Raise RuntimeError).
Proof.
  intros E _ _.
  apply init_Return_inv in E
    as (o0 & o1 & o2 & o3 & o4 & o5 & rest & -> & _ & _ & _ & _ & _ & _ & _ & ->).
  cbn [layers]. split.
  - intros fs. apply stages_feeds.
  - intros Small. apply forward_Raise. left. cbn [layers].
    match goal with
    | |- feeds_raise ?ls ?x _ =>
        destruct (feeds_total ls x) as [[fs F]|[e R]]
    end.
    + exfalso. apply Small.
      apply (stages_feeds n ic o0 o1 o2 o3 o4 o5 rest) in F as (Hh & Hw & _).
      auto.
    + pose proof (feeds_raise_runtime _ _ _ R). now subst e.
Qed.

(** X5. With any input size: on a batched input with image_channels
    channels the forward pass of a constructed model returns exactly when
    the input is at least 260 x 260 and output_feature_sizes is the list of
    sizes computed from the input's height and width; it then returns the
    six features of [feature_shapes]. *)
Theorem forward_returns_iff oc ic ofs self n h w out :
  __init__ oc ic ofs = Return self ->
  0 < ic -> Forall (fun c => 0 < c) oc ->
  (result_of (forward (Torch.mkTensor [n; ic; h; w])) self = Return out <->
   260 <= h /\ 260 <= w /\
   ofs = computed_feature_sizes h w /\
   out = feature_shapes n oc h w).
Proof.
  intros E _ _.
  apply init_Return_inv in E
    as (o0 & o1 & o2 & o3 & o4 & o5 & rest & -> & _ & _ & _ & _ & _ & _ & _ & ->).
  rewrite forward_Return. cbn [layers].
  rewrite (stages_feeds n ic o0 o1 o2 o3 o4 o5 rest).
  match goal with
  | |- context [expected_shape_at ?s] =>
      pose proof (checks_computed s o0 o1 o2 o3 o4 o5 rest n h w eq_refl) as C
  end.
  cbn [out_channels output_feature_shape] in C. cbv zeta in C.
  split.
  - intros ((Hh & Hw & ->) & A & Len).
    repeat split; try assumption. apply C. split; assumption.
  - intros (Hh & Hw & Eofs & ->).
    apply C in Eofs as (A & Len). repeat split; assumption.
Qed.

(** X6. With the documented output_feature_sizes, the forward pass of a
    constructed model returns on a batched input with image_channels
    channels exactly when its height and width lie between 300 and 307:
    these are the sizes the first stage maps to 38. *)
Theorem forward_documented_sizes oc ic self n h w :
  __init__ oc ic documented_feature_sizes = Return self ->
  0 < ic -> Forall (fun c => 0 < c) oc ->
  ((exists out,
      result_of (forward (Torch.mkTensor [n; ic; h; w])) self = Return out) <->
   300 <= h <= 307 /\ 300 <= w <= 307).
Proof.
  intros E _ _.
  apply init_Return_inv in E
    as (o0 & o1 & o2 & o3 & o4 & o5 & rest & -> & _ & _ & _ & _ & _ & _ & _ & ->).
  match goal with
  | |- context [result_of _ ?s] =>
      pose proof (checks_computed s o0 o1 o2 o3 o4 o5 rest n h w eq_refl) as C
  end.
  cbn [out_channels output_feature_shape] in C. cbv zeta in C.
  assert (S : documented_feature_sizes = computed_feature_sizes h w <->
              300 <= h <= 307 /\ 300 <= w <= 307).
  { unfold documented_feature_sizes.
    cbn [computed_feature_sizes feature_sizes combine map fst snd].
    split.
    - intros Eq. inversion Eq. split; size_arith.
    - intros [Hh Hw].
      repeat (f_equal; try size_arith). }
  split.
  - intros (out & R). apply forward_Return in R as (F & A & Len).
    cbn [layers] in F.
    apply (stages_feeds n ic o0 o1 o2 o3 o4 o5 rest) in F as (_ & _ & ->).
    apply S. apply C. split; assumption.
  - intros R. pose proof (proj2 S R) as Eofs.
    apply C in Eofs as (A & Len).
    eexists. apply forward_Return. cbn [layers]. split; [|split].
    + apply (stages_feeds n ic o0 o1 o2 o3 o4 o5 rest).
      split; [lia|]. split; [lia|]. reflexivity.
    + exact A.
    + exact Len.
Qed.

Lemma first_stage_forward_channels n c ic o h w :
  c <> ic ->
  Torch.sequential_forward (first_stage ic o) (Torch.mkTensor [n; c; h; w])
  = Raise RuntimeError.
Proof.
  intros N. unfold first_stage. cbn [Torch.sequential_forward].
  rewrite conv3_forward_channels by exact N. reflexivity.
Qed.

(** X7. A batched input whose channel count differs from image_channels is
    rejected by the first convolution: the forward pass of a constructed
    model raises RuntimeError, whatever the input size and whatever sizes
    are configured. *)
Theorem forward_channel_mismatch oc ic ofs self n c h w :
  __init__ oc ic ofs = Return self ->
  c <> ic ->
  result_of (forward (Torch.mkTensor [n; c; h; w])) self = Raise RuntimeError.
Proof.
  intros E N.
  apply init_Return_inv in E
    as (o0 & o1 & o2 & o3 & o4 & o5 & rest & -> & _ & _ & _ & _ & _ & _ & _ & ->).
  apply forward_Raise. left. cbn [layers]. apply raise_here.
  cbn [call torch_callable]. now apply first_stage_forward_channels.
Qed.

(** X8. The forward pass of a constructed model returns only on inputs of
    rank 4: on an input of any other rank nothing is returned, and when the
    rank is not 3 either, the first convolution raises RuntimeError. *)
Theorem forward_rank oc ic ofs self (x : Torch.Tensor) :
  __init__ oc ic ofs = Return self ->
  List.length (Torch.dims x) <> 4%nat ->
  (forall out, result_of (forward x) self <> Return out) /\
  (List.length (Torch.dims x) <> 3%nat ->
   result_of (forward x) self = Raise RuntimeError).
Proof.
  intros E N.
  apply init_Return_inv in E
    as (o0 & o1 & o2 & o3 & o4 & o5 & rest & -> & _ & _ & _ & _ & _ & _ & _ & ->).
  split.
  - intros out R. apply forward_Return in R as (F & A & _). cbn [layers] in F.
    pose proof (feeds_rank _ _ _ F) as Rk.
    inversion F as [|l ls x' f fs E F']; subst.
    inversion Rk as [|f' fs' Ef _]; subst.
    specialize (A 0%nat f eq_refl).
    apply expected_shape_at_Some in A as (c & eh & ew & _ & _ & A).
    cbn [shape torch_callable] in A. unfold slice_from_1 in A.
    apply N. rewrite <- Ef.
    destruct (Torch.dims f) as [|d tail]; simpl in A; [discriminate|].
    subst tail. reflexivity.
  - intros N3. apply forward_Raise. left. cbn [layers]. apply raise_here.
    cbn [call torch_callable]. destruct x as [d]. simpl in N, N3.
    unfold first_stage, conv3. cbn [Torch.sequential_forward Torch.module_forward].
    destruct d as [|d0 [|d1 [|d2 [|d3 [|d4 d]]]]]; simpl in N, N3;
      try reflexivity; congruence.
Qed.

Ltac init_step :=
  match goal with
  | |- context [Torch.new_Conv2d ?i ?o ?k ?p ?s] =>
      destruct (Torch.new_Conv2d i o k p s);
      cbn [bind getitem nth_error]
  end.

(** X9. The constructor stores output_feature_sizes and never looks at it:
    whether construction succeeds, the exception it raises and the stages
    it builds are the same for every output_feature_sizes, so a wrong list
    of sizes is only found by the forward pass. *)
Theorem init_ignores_sizes oc ic ofs ofs' :
  __init__ oc ic ofs' =
  match __init__ oc ic ofs with
  | Return self => Return (with_feature_sizes ofs' self)
  | Raise e => Raise e
  end.
Proof.
  unfold __init__.
  destruct oc as [|o0 [|o1 [|o2 [|o3 [|o4 [|o5 rest]]]]]];
    cbn [bind getitem nth_error]; repeat init_step; reflexivity.
Qed.

Section Agreement.

Context {Layer Tensor : Type} `{Callable Layer Tensor}.

(** The first loop reads nothing of [self] but the layers it is given. *)
Lemma for_layers_any_self ls x acc (a b : BasicModel Layer) :
  result_of (for_layers ls x acc) a = result_of (for_layers ls x acc) b.
Proof.
  destruct (result_of (for_layers ls x acc) a) as [out|e] eqn:R; symmetry.
  - apply for_layers_Return. now apply for_layers_Return in R.
  - apply for_layers_Raise. now apply for_layers_Raise in R.
Qed.

(** The second loop reads [out_channels] and [output_feature_shape] at the
    indices of the features only. *)
Lemma for_features_agree fs idx (a b : BasicModel Layer) :
  (forall k, (k < List.length fs)%nat ->
     nth_error (out_channels a) (idx + k) = nth_error (out_channels b) (idx + k) /\
     nth_error (output_feature_shape a) (idx + k)
     = nth_error (output_feature_shape b) (idx + k)) ->
  result_of (for_features idx fs) a = result_of (for_features idx fs) b.
Proof.
  unfold result_of. revert idx; induction fs as [|f fs IH]; intros idx A.
  - reflexivity.
  - rewrite !for_features_cons.
    destruct (A 0%nat) as [A1 A2]; [simpl; lia|].
    rewrite Nat.add_0_r in A1, A2. rewrite <- A1, <- A2.
    destruct (nth_error (out_channels a) idx); [|reflexivity].
    destruct (nth_error (output_feature_shape a) idx) as [t|]; [|reflexivity].
    destruct (unpack2 t) as [[h w]|e]; [|reflexivity].
    destruct (tuple_eqb _ _); [|reflexivity].
    apply IH. intros k Lk. specialize (A (S k)).
    rewrite Nat.add_succ_r in A. apply A. simpl. lia.
Qed.

(** Two objects with the same layers and the same number of configured
    sizes, whose configuration agrees at the indices of the layers, behave
    alike under [forward]. *)
Lemma forward_agree x (a b : BasicModel Layer) :
  layers a = layers b ->
  List.length (output_feature_shape a) = List.length (output_feature_shape b) ->
  (forall k, (k < List.length (layers a))%nat ->
     nth_error (out_channels a) k = nth_error (out_channels b) k /\
     nth_error (output_feature_shape a) k = nth_error (output_feature_shape b) k) ->
  result_of (forward x) a = result_of (forward x) b.
Proof.
  intros L Len A. rewrite !forward_result. rewrite <- L, <- Len.
  rewrite (for_layers_any_self (layers a) x [] b a).
  destruct (result_of (for_layers (layers a) x []) a) as [fs|e] eqn:R;
    [|reflexivity].
  apply for_layers_Return in R as (fs' & F & E). simpl in E. subst fs'.
  apply feeds_length in F.
  rewrite (for_features_agree fs 0 a b); [reflexivity|].
  intros k Lk. apply A. lia.
Qed.

End Agreement.

(** X10. Entries of output_channels after the sixth are never used: two
    lists that agree on their first six entries lead to the same outcome of
    construction (the same exception, or models with the same stages) and
    to the same outcome of the forward pass on every input. *)
Theorem extra_channels_ignored oc oc' ic ofs :
  firstn 6 oc = firstn 6 oc' ->
  match __init__ oc ic ofs, __init__ oc' ic ofs with
  | Return a, Return b =>
      layers a = layers b /\
      forall x : Torch.Tensor, result_of (forward x) a = result_of (forward x) b
  | Raise e, Raise e' => e = e'
  | _, _ => False
  end.
Proof.
  intros E.
  destruct oc as [|o0 [|o1 [|o2 [|o3 [|o4 [|o5 rest]]]]]];
    destruct oc' as [|p0 [|p1 [|p2 [|p3 [|p4 [|p5 rest']]]]]];
    simpl in E; try discriminate E; inversion E; subst;
    unfold __init__; cbn [bind getitem nth_error];
    repeat init_step; try reflexivity.
  split; [reflexivity|]. intros x.
  apply forward_agree; [reflexivity | reflexivity |].
  cbn [layers out_channels output_feature_shape]. intros k Lk. simpl in Lk.
  split; [|reflexivity].
  destruct k as [|[|[|[|[|[|k]]]]]]; try lia; reflexivity.
Qed.

(** X11. The count assertion of a constructed model fires exactly when more
    than six sizes are configured and the six features were computed and
    all passed the shape check; its message then carries the configured
    length and 6. *)
Theorem count_assertion_iff oc ic ofs self (x : Torch.Tensor) a b :
  __init__ oc ic ofs = Return self ->
  (result_of (forward x) self = Raise (AssertionError (CountMismatch a b)) <->
   (6 < List.length ofs)%nat /\ a = List.length ofs /\ b = 6%nat /\
   exists fs,
     feeds (layers self) x fs /\
     forall k f, nth_error fs k = Some f ->
                 expected_shape_at self k = Some (slice_from_1 (Torch.dims f))).
Proof.
  intros E.
  apply init_Return_inv in E
    as (o0 & o1 & o2 & o3 & o4 & o5 & rest & -> & _ & _ & _ & _ & _ & _ & _ & ->).
  rewrite forward_Raise. cbn [layers output_feature_shape]. split.
  - intros [R|(fs & F & [(k & f & _ & _ & C)|(A & L & Eq)])].
    + apply feeds_raise_runtime in R. discriminate R.
    + inversion C.
    + inversion Eq; subst. clear Eq.
      pose proof (feeds_length _ _ _ F) as Lf. simpl in Lf. rewrite Lf in *.
      split; [|split; [reflexivity|split; [reflexivity|]]].
      * destruct (nth_error fs 5) as [f|] eqn:Ef.
        2:{ apply nth_error_None in Ef. lia. }
        apply A in Ef.
        apply expected_shape_at_Some in Ef as (c & h & w & _ & E2 & _).
        cbn [output_feature_shape] in E2.
        assert ((5 < List.length ofs)%nat) by (apply nth_error_Some; congruence).
        lia.
      * exists fs. split; assumption.
  - intros (L & -> & -> & fs & F & A). right. exists fs. split; [exact F|].
    right. pose proof (feeds_length _ _ _ F) as Lf. simpl in Lf. rewrite Lf.
    split; [exact A|]. split; [lia | reflexivity].
Qed.

(** X12. On a batched input the shape assertion of a constructed model
    never fails on the channel count: when it fires at index k, the
    expected and the actual shape both start with output_channels[k], the
    actual height and width are the k-th computed sizes, and they differ
    from the configured pair. *)
Theorem shape_assertion_is_spatial oc ic ofs self n c h w expected got k :
  __init__ oc ic ofs = Return self ->
  result_of (forward (Torch.mkTensor [n; c; h; w])) self
  = Raise (AssertionError (ShapeMismatch expected got k)) ->
  exists o eh ew gh gw,
    nth_error oc k = Some o /\
    nth_error ofs k = Some [eh; ew] /\
    nth_error (computed_feature_sizes h w) k = Some [gh; gw] /\
    expected = [o; eh; ew] /\
    got = [o; gh; gw] /\
    (eh <> gh \/ ew <> gw).
Proof.
  intros E R.
  apply init_Return_inv in E
    as (o0 & o1 & o2 & o3 & o4 & o5 & rest & -> & _ & _ & _ & _ & _ & _ & _ & ->).
  apply forward_Raise in R
    as [R|(fs & F & [(k' & f & Ef & _ & C)|(_ & _ & R)])];
    [apply feeds_raise_runtime in R; discriminate R | | discriminate R].
  cbn [layers] in F.
  destruct (Z.eq_dec c ic) as [->|N].
  2:{ exfalso. inversion F as [|l ls x' y fs' Ec F']; subst.
      cbn [call torch_callable] in Ec.
      rewrite first_stage_forward_channels in Ec by exact N. discriminate Ec. }
  apply (stages_feeds n ic o0 o1 o2 o3 o4 o5 rest) in F as (_ & _ & ->).
  inversion C as [| | |ex Ex Nx Eq]; subst. clear C.
  apply expected_shape_at_Some in Ex as (o & eh & ew & E1 & E2 & ->).
  cbn [out_channels output_feature_shape] in E1, E2.
  cbn [feature_shapes computed_feature_sizes feature_sizes firstn combine map
       fst snd] in Ef |- *.
  cbn [shape torch_callable] in Nx.
  destruct k as [|[|[|[|[|[|k]]]]]]; simpl in Ef;
    try (destruct k; discriminate Ef);
    inversion Ef; subst f; clear Ef;
    simpl in E1; inversion E1; subst o; clear E1;
    cbn [Torch.dims slice_from_1 tl] in *;
    do 5 eexists; (split; [reflexivity|]); (split; [exact E2|]);
    (split; [reflexivity|]); (split; [reflexivity|]); (split; [reflexivity|]);
    match goal with
    | |- ?a <> ?b \/ ?c <> ?d =>
        destruct (Z.eq_dec a b) as [Q1|Q1]; [|now left];
        destruct (Z.eq_dec c d) as [Q2|Q2]; [|now right];
        exfalso; apply Nx; congruence
    end.
Qed.

(** X13. The features of a constructed model shrink from stage to stage and
    are never empty: on an accepted input, each feature after the first is
    strictly smaller in height and in width than the one before it, and
    every height and width is at least 1. *)
Theorem features_shrink oc ic ofs self n h w fs k f g :
  __init__ oc ic ofs = Return self ->
  feeds (layers self) (Torch.mkTensor [n; ic; h; w]) fs ->
  nth_error fs k = Some f ->
  nth_error fs (S k) = Some g ->
  exists c a b c' a' b',
    Torch.dims f = [n; c; a; b] /\ Torch.dims g = [n; c'; a'; b'] /\
    1 <= a' < a /\ 1 <= b' < b /\ a < h /\ b < w.
Proof.
  intros E F Ef Eg.
  apply init_Return_inv in E
    as (o0 & o1 & o2 & o3 & o4 & o5 & rest & -> & _ & _ & _ & _ & _ & _ & _ & ->).
  cbn [layers] in F.
  apply (stages_feeds n ic o0 o1 o2 o3 o4 o5 rest) in F as (Hh & Hw & ->).
  cbn [feature_shapes computed_feature_sizes feature_sizes firstn combine map
       fst snd] in Ef, Eg.
  destruct k as [|[|[|[|[|k]]]]]; simpl in Ef, Eg;
    try (destruct k; discriminate Eg);
    inversion Ef; subst f; inversion Eg; subst g;
    do 6 eexists; (split; [reflexivity|]); (split; [reflexivity|]);
    repeat split; size_arith.
Qed.

(** X14. Construction succeeds exactly when output_channels has at least
    six entries, image_channels and the first six channel counts are not
    negative, and the machine can hold the parameters of each of the
    fourteen convolutions. *)
Theorem init_returns_iff oc ic ofs :
  (exists self, __init__ oc ic ofs = Return self) <->
  exists o0 o1 o2 o3 o4 o5 rest,
    oc = o0 :: o1 :: o2 :: o3 :: o4 :: o5 :: rest /\
    0 <= ic /\
    Forall (fun c => 0 <= c) [o0; o1; o2; o3; o4; o5] /\
    Forall (fun p => Torch.allocates_conv2d (fst p) (snd p) 3 = true)
           (conv_channels ic o0 o1 o2 o3 o4 o5).
Proof.
  split.
  - intros (self & E).
    pose proof E as E'.
    apply init_Return_inv in E
      as (o0 & o1 & o2 & o3 & o4 & o5 & rest & -> & ? & ? & ? & ? & ? & ? & ? & _).
    exists o0, o1, o2, o3, o4, o5, rest.
    split; [reflexivity|]. split; [assumption|]. split.
    + repeat constructor; assumption.
    + now apply init_Return_allocates in E'.
  - intros (o0 & o1 & o2 & o3 & o4 & o5 & rest & -> & Hic & P & A).
    repeat match goal with
    | P : Forall (fun c => 0 <= c) (_ :: _) |- _ => inversion P; subst; clear P
    end.
    eexists. apply init_ok; assumption.
Qed.

End Further.

(* ================================================================== *)
(** ** The further properties at the example configuration *)

Lemma example_channels_all_positive :
  Forall (fun c => 0 < c) example_output_channels.
Proof. repeat constructor. Qed.

Lemma layer_1_forward_witness :
  (__init__ (mem := example_memory) example_output_channels 3 documented_feature_sizes = Return example_model /\
   0 < 3 /\ Forall (fun c => 0 < c) example_output_channels) /\
  exists o0,
    nth_error example_output_channels 0 = Some o0 /\
    call (layer_1 example_model) (Torch.mkTensor [1; 3; 300; 300]) =
    if (4 <=? 300) && (4 <=? 300)
    then Return (Torch.mkTensor [1; o0; (300 / 4 + 1) / 2; (300 / 4 + 1) / 2])
    else Raise RuntimeError.
Proof.
  assert (I : 0 < 3) by lia.
  split; [split; [reflexivity | split; [exact I | exact example_channels_all_positive]]|].
  exact (layer_1_forward (mem := example_memory) example_output_channels 3 documented_feature_sizes
           example_model 1 300 300 eq_refl I example_channels_all_positive).
Defined.

Lemma halving_layers_forward_witness :
  (__init__ (mem := example_memory) example_output_channels 3 documented_feature_sizes = Return example_model /\
   0 < 3 /\ Forall (fun c => 0 < c) example_output_channels /\
   (1 <= 1 <= 4)%nat /\
   nth_error (layers example_model) 1 = Some (later_stage 128 128 256 1 2)) /\
  exists i o,
    nth_error example_output_channels (1 - 1) = Some i /\
    nth_error example_output_channels 1 = Some o /\
    call (later_stage 128 128 256 1 2) (Torch.mkTensor [1; i; 38; 38]) =
    if (1 <=? 38) && (1 <=? 38)
    then Return (Torch.mkTensor [1; o; (38 + 1) / 2; (38 + 1) / 2])
    else Raise RuntimeError.
Proof.
  assert (I : 0 < 3) by lia.
  assert (K : (1 <= 1 <= 4)%nat) by lia.
  split.
  - split; [reflexivity|]. split; [exact I|].
    split; [exact example_channels_all_positive|]. split; [exact K | reflexivity].
  - exact (halving_layers_forward (mem := example_memory) example_output_channels 3 documented_feature_sizes
             example_model 1 _ 1 38 38 eq_refl I example_channels_all_positive K eq_refl).
Defined.

Lemma layer_6_forward_witness :
  (__init__ (mem := example_memory) example_output_channels 3 documented_feature_sizes = Return example_model /\
   0 < 3 /\ Forall (fun c => 0 < c) example_output_channels) /\
  exists o4 o5,
    nth_error example_output_channels 4 = Some o4 /\
    nth_error example_output_channels 5 = Some o5 /\
    call (layer_6 example_model) (Torch.mkTensor [1; o4; 3; 3]) =
    if (3 <=? 3) && (3 <=? 3)
    then Return (Torch.mkTensor [1; o5; 3 - 2; 3 - 2])
    else Raise RuntimeError.
Proof.
  assert (I : 0 < 3) by lia.
  split; [split; [reflexivity | split; [exact I | exact example_channels_all_positive]]|].
  exact (layer_6_forward (mem := example_memory) example_output_channels 3 documented_feature_sizes
           example_model 1 3 3 eq_refl I example_channels_all_positive).
Defined.

Lemma stages_accept_witness :
  (__init__ (mem := example_memory) example_output_channels 3 documented_feature_sizes = Return example_model /\
   0 < 3 /\ Forall (fun c => 0 < c) example_output_channels) /\
  (feeds (layers example_model) (Torch.mkTensor [1; 3; 300; 300]) example_features <->
   260 <= 300 /\ 260 <= 300 /\
   example_features = feature_shapes 1 example_output_channels 300 300) /\
  (~ (260 <= 259 /\ 260 <= 300) ->
   result_of (forward (Torch.mkTensor [1; 3; 259; 300])) example_model
   = Raise RuntimeError).
Proof.
  assert (I : 0 < 3) by lia.
  split; [split; [reflexivity | split; [exact I | exact example_channels_all_positive]]|].
  split.
  - apply (stages_accept (mem := example_memory) example_output_channels 3 documented_feature_sizes
             example_model 1 300 300 eq_refl I example_channels_all_positive).
  - apply (stages_accept (mem := example_memory) example_output_channels 3 documented_feature_sizes
             example_model 1 259 300 eq_refl I example_channels_all_positive).
Defined.

Lemma forward_returns_iff_witness :
  (__init__ (mem := example_memory) example_output_channels 3 documented_feature_sizes = Return example_model /\
   0 < 3 /\ Forall (fun c => 0 < c) example_output_channels) /\
  (result_of (forward (Torch.mkTensor [1; 3; 300; 300])) example_model
   = Return example_features <->
   260 <= 300 /\ 260 <= 300 /\
   documented_feature_sizes = computed_feature_sizes 300 300 /\
   example_features = feature_shapes 1 example_output_channels 300 300).
Proof.
  assert (I : 0 < 3) by lia.
  split; [split; [reflexivity | split; [exact I | exact example_channels_all_positive]]|].
  exact (forward_returns_iff (mem := example_memory) example_output_channels 3 documented_feature_sizes
           example_model 1 300 300 example_features eq_refl I
           example_channels_all_positive).
Defined.

Lemma forward_documented_sizes_witness :
  (__init__ (mem := example_memory) example_output_channels 3 documented_feature_sizes = Return example_model /\
   0 < 3 /\ Forall (fun c => 0 < c) example_output_channels) /\
  ((exists out,
      result_of (forward (Torch.mkTensor [1; 3; 307; 300])) example_model
      = Return out) <->
   300 <= 307 <= 307 /\ 300 <= 300 <= 307).
Proof.
  assert (I : 0 < 3) by lia.
  split; [split; [reflexivity | split; [exact I | exact example_channels_all_positive]]|].
  exact (forward_documented_sizes (mem := example_memory) example_output_channels 3 example_model 1 307 300
           eq_refl I example_channels_all_positive).
Defined.

Lemma forward_channel_mismatch_witness :
  (__init__ (mem := example_memory) example_output_channels 3 documented_feature_sizes = Return example_model /\
   1 <> 3) /\
  result_of (forward (Torch.mkTensor [1; 1; 300; 300])) example_model
  = Raise RuntimeError.
Proof.
  assert (N : 1 <> 3) by lia.
  split; [split; [reflexivity | exact N]|].
  exact (forward_channel_mismatch (mem := example_memory) example_output_channels 3 documented_feature_sizes
           example_model 1 1 300 300 eq_refl N).
Defined.

Lemma forward_rank_witness :
  (__init__ (mem := example_memory) example_output_channels 3 documented_feature_sizes = Return example_model /\
   List.length (Torch.dims (Torch.mkTensor [3; 300; 300])) <> 4%nat) /\
  forall out,
    result_of (forward (Torch.mkTensor [3; 300; 300])) example_model <> Return out.
Proof.
  assert (N : List.length (Torch.dims (Torch.mkTensor [3; 300; 300])) <> 4%nat)
    by (simpl; lia).
  split; [split; [reflexivity | exact N]|].
  apply (forward_rank (mem := example_memory) example_output_channels 3 documented_feature_sizes
           example_model (Torch.mkTensor [3; 300; 300]) eq_refl N).
Defined.

Lemma extra_channels_ignored_witness :
  firstn 6 example_output_channels = firstn 6 (example_output_channels ++ [7]) /\
  match __init__ (mem := example_memory) example_output_channels 3 documented_feature_sizes,
        __init__ (mem := example_memory) (example_output_channels ++ [7]) 3 documented_feature_sizes with
  | Return a, Return b =>
      layers a = layers b /\
      forall x : Torch.Tensor, result_of (forward x) a = result_of (forward x) b
  | Raise e, Raise e' => e = e'
  | _, _ => False
  end.
Proof.
  split; [reflexivity|].
  exact (extra_channels_ignored (mem := example_memory) example_output_channels
           (example_output_channels ++ [7]) 3 documented_feature_sizes eq_refl).
Defined.

Lemma count_assertion_iff_witness :
  let ofs := documented_feature_sizes ++ [[1; 1]] in
  let self := with_feature_sizes ofs example_model in
  __init__ (mem := example_memory) example_output_channels 3 ofs = Return self /\
  (result_of (forward example_image) self
   = Raise (AssertionError (CountMismatch 7 6)) <->
   (6 < List.length ofs)%nat /\ 7%nat = List.length ofs /\ 6%nat = 6%nat /\
   exists fs,
     feeds (layers self) example_image fs /\
     forall k f, nth_error fs k = Some f ->
                 expected_shape_at self k = Some (slice_from_1 (Torch.dims f))).
Proof.
  intros ofs self. split; [reflexivity|].
  exact (count_assertion_iff (mem := example_memory) example_output_channels 3 ofs self example_image 7 6
           eq_refl).
Defined.

Lemma shape_assertion_is_spatial_witness :
  let self := with_feature_sizes mismatched_feature_sizes example_model in
  (__init__ (mem := example_memory) example_output_channels 3 mismatched_feature_sizes = Return self /\
   result_of (forward (Torch.mkTensor [1; 3; 300; 300])) self
   = Raise (AssertionError (ShapeMismatch [64; 2; 2] [64; 1; 1] 5))) /\
  exists o eh ew gh gw,
    nth_error example_output_channels 5 = Some o /\
    nth_error mismatched_feature_sizes 5 = Some [eh; ew] /\
    nth_error (computed_feature_sizes 300 300) 5 = Some [gh; gw] /\
    [64; 2; 2] = [o; eh; ew] /\
    [64; 1; 1] = [o; gh; gw] /\
    (eh <> gh \/ ew <> gw).
Proof.
  intros self. split; [split; reflexivity|].
  exact (shape_assertion_is_spatial (mem := example_memory) example_output_channels 3 mismatched_feature_sizes
           self 1 3 300 300 [64; 2; 2] [64; 1; 1] 5 eq_refl eq_refl).
Defined.

Lemma features_shrink_witness :
  (__init__ (mem := example_memory) example_output_channels 3 documented_feature_sizes = Return example_model /\
   feeds (layers example_model) (Torch.mkTensor [1; 3; 300; 300]) example_features /\
   nth_error example_features 0 = Some (Torch.mkTensor [1; 128; 38; 38]) /\
   nth_error example_features 1 = Some (Torch.mkTensor [1; 256; 19; 19])) /\
  exists c a b c' a' b',
    Torch.dims (Torch.mkTensor [1; 128; 38; 38]) = [1; c; a; b] /\
    Torch.dims (Torch.mkTensor [1; 256; 19; 19]) = [1; c'; a'; b'] /\
    1 <= a' < a /\ 1 <= b' < b /\ a < 300 /\ b < 300.
Proof.
  split.
  - split; [reflexivity|]. split; [exact example_feeds|]. split; reflexivity.
  - exact (features_shrink (mem := example_memory) example_output_channels 3 documented_feature_sizes
             example_model 1 300 300 example_features 0 _ _
             eq_refl example_feeds eq_refl eq_refl).
Defined.
